(** * DrishtiAI: the staged agent flow of [src/components/DrishtiAI.tsx]

    The component keeps four pieces of React state ([messages],
    [inputValue], [isProcessing], [currentProcessLog]) and one
    asynchronous function, [simulateAgentFlow], that appends a user
    message and an agent placeholder and then reveals a scripted
    analysis field by field, with a timer between the steps.

    Embedding.
    - An [AgentResponse] is a JavaScript object that the code builds from
      literals and combines with object spread; it is a finite map from
      property names to values ([gmap string Value]).  A property that is
      absent (undefined) has no binding.
    - [simulateAgentFlow] is the list of the state-setter calls and
      timer waits it performs, in program order ([Effect]).  The calls
      between two waits run without interruption (JavaScript is
      single threaded); at a wait any other handler may run.
    - State set by a setter is visible to the next handler that runs:
      React's batching of the updates of one synchronous block is not
      modelled, and the updater functions passed to [setMessages] are
      applied in call order, as React does.
    - [Date.now()] and [new Date()] are inputs ([Clock]). Timer
      durations are recorded in the effects but the scheduler lets any
      pending continuation resume.
    - A string is the sequence of the UTF-8 bytes of the JavaScript
      string. *)

From stdpp Require Import gmap strings list pretty.

Open Scope Z_scope.
Open Scope string_scope.
Open Scope list_scope.

(** ** Types (lines 8-45) *)

Inductive Verdict := SAFE | CAUTION | AVOID.

Record UserProfile := {
  allergies : option (list string);
  conditions : option (list string);
  goals : option (list string)
}.

(** [string | null] *)
Inductive Nullable (A : Type) := Null | NotNull (a : A).
Arguments Null {A}.
Arguments NotNull {A} a.

Record ProductData := {
  product_name : option (Nullable string);
  company_name : option (Nullable string);
  IngredientList : list string;
  NutritionFacts : list (string * string);
  MarketingClaims : list string
}.

(** The values the properties of an [AgentResponse] take. *)
Inductive Value :=
| VNull
| VString (s : string)
| VBool (b : bool)
| VStrings (l : list string)
| VProfile (p : UserProfile)
| VProduct (p : ProductData)
| VVerdict (v : Verdict).

(** [interface AgentResponse]; [Partial<AgentResponse>] is the same type
    of objects. *)
Abbreviation AgentResponse := (gmap string Value).

Inductive Role := user | agent.

Record Message := {
  id : string;
  type : Role;
  content : string;
  agentResponse : option AgentResponse;
  timestamp : Z;
  isStreaming : option bool
}.

(** The [useState] cells of the component (lines 100-103). *)
Record State := {
  messages : list Message;
  inputValue : string;
  isProcessing : bool;
  currentProcessLog : string
}.

Definition initialState : State :=
  {| messages := []; inputValue := ""; isProcessing := false;
     currentProcessLog := "" |}.

(** ** JavaScript operators used by the component *)

(** [{ ...a, ...b }]: the properties of [b] win. *)
Definition spread (a b : AgentResponse) : AgentResponse := b ∪ a.

(** Truthiness of a string: non-empty. *)
Definition truthy (s : string) : bool := negb (String.eqb s "").

(** [a || b] on strings. *)
Definition orElse (a b : string) : string := if truthy a then a else b.

(** A string holds the UTF-8 bytes of the JavaScript string.
    [codePoints] decodes them; a byte that starts no well-formed sequence
    (overlong forms and surrogates included) decodes to U+FFFD. The
    encoding of a JavaScript string has no such byte, unless the string
    has an unpaired surrogate, which is not white space either. *)
Definition replacementCharacter : N := 65533%N.

Definition continuation (a : Ascii.ascii) : option N :=
  let b := Ascii.N_of_ascii a in
  if ((128 <=? b) && (b <? 192))%N then Some (b - 128)%N else None.

Fixpoint codePoints (s : string) : list N :=
  match s with
  | EmptyString => []
  | String a r =>
      let b := Ascii.N_of_ascii a in
      if (b <? 128)%N then b :: codePoints r
      else if (b <? 194)%N then replacementCharacter :: codePoints r
      else if (b <? 224)%N then
        match r with
        | String a1 r1 =>
            match continuation a1 with
            | Some c1 => ((b - 192) * 64 + c1)%N :: codePoints r1
            | None => replacementCharacter :: codePoints r
            end
        | EmptyString => replacementCharacter :: codePoints r
        end
      else if (b <? 240)%N then
        match r with
        | String a1 (String a2 r2) =>
            match continuation a1, continuation a2 with
            | Some c1, Some c2 =>
                let p := ((b - 224) * 4096 + c1 * 64 + c2)%N in
                if ((p <? 2048) || ((55296 <=? p) && (p <? 57344)))%N
                then replacementCharacter :: codePoints r
                else p :: codePoints r2
            | _, _ => replacementCharacter :: codePoints r
            end
        | _ => replacementCharacter :: codePoints r
        end
      else if (b <? 245)%N then
        match r with
        | String a1 (String a2 (String a3 r3)) =>
            match continuation a1, continuation a2, continuation a3 with
            | Some c1, Some c2, Some c3 =>
                let p := ((b - 240) * 262144 + c1 * 4096 + c2 * 64 + c3)%N in
                if ((p <? 65536) || (1114111 <? p))%N
                then replacementCharacter :: codePoints r
                else p :: codePoints r3
            | _, _, _ => replacementCharacter :: codePoints r
            end
        | _ => replacementCharacter :: codePoints r
        end
      else replacementCharacter :: codePoints r
  end.

Definition encodePoint (p : N) : string :=
  if (p <? 128)%N then String (Ascii.ascii_of_N p) ""
  else if (p <? 2048)%N then
    String (Ascii.ascii_of_N (192 + p / 64))
      (String (Ascii.ascii_of_N (128 + p mod 64)) "")
  else if (p <? 65536)%N then
    String (Ascii.ascii_of_N (224 + p / 4096))
      (String (Ascii.ascii_of_N (128 + (p / 64) mod 64))
         (String (Ascii.ascii_of_N (128 + p mod 64)) ""))
  else
    String (Ascii.ascii_of_N (240 + p / 262144))
      (String (Ascii.ascii_of_N (128 + (p / 4096) mod 64))
         (String (Ascii.ascii_of_N (128 + (p / 64) mod 64))
            (String (Ascii.ascii_of_N (128 + p mod 64)) ""))).

Definition ofCodePoints (l : list N) : string :=
  fold_right (λ p s, String.append (encodePoint p) s) "" l.

(** The white space and line terminator code points of ECMAScript:
    TAB, LF, VT, FF, CR, SPACE, NBSP, U+1680, U+2000 to U+200A, U+2028,
    U+2029, U+202F, U+205F, U+3000 and U+FEFF. *)
Definition isWhiteSpace (p : N) : bool :=
  match p with
  | 9 | 10 | 11 | 12 | 13 | 32 | 160 | 5760 | 8232 | 8233 | 8239 | 8287
  | 12288 | 65279 => true
  | _ => (8192 <=? p) && (p <=? 8202)
  end%N.

Fixpoint trimStartPoints (l : list N) : list N :=
  match l with
  | p :: l' => if isWhiteSpace p then trimStartPoints l' else l
  | [] => []
  end.

Definition trimEndPoints (l : list N) : list N := rev (trimStartPoints (rev l)).

(** [String.prototype.trim]. *)
Definition trim (s : string) : string :=
  ofCodePoints (trimEndPoints (trimStartPoints (codePoints s))).

(** A string of white space only (the empty string included). *)
Definition blank (s : string) : bool := forallb isWhiteSpace (codePoints s).

(** [Number.prototype.toString()] of an integer. *)
Definition toString (n : Z) : string := pretty n.

Definition ofNullable (v : option string) : Value :=
  match v with Some s => VString s | None => VNull end.

(** ** State setters *)

Definition setMessages (f : list Message → list Message) (s : State) : State :=
  {| messages := f (messages s); inputValue := inputValue s;
     isProcessing := isProcessing s; currentProcessLog := currentProcessLog s |}.

Definition setInputValue (v : string) (s : State) : State :=
  {| messages := messages s; inputValue := v;
     isProcessing := isProcessing s; currentProcessLog := currentProcessLog s |}.

Definition setIsProcessing (b : bool) (s : State) : State :=
  {| messages := messages s; inputValue := inputValue s;
     isProcessing := b; currentProcessLog := currentProcessLog s |}.

Definition setCurrentProcessLog (l : string) (s : State) : State :=
  {| messages := messages s; inputValue := inputValue s;
     isProcessing := isProcessing s; currentProcessLog := l |}.

(** [{ ...m, agentResponse: r }] *)
Definition withAgentResponse (m : Message) (r : AgentResponse) : Message :=
  {| id := id m; type := type m; content := content m;
     agentResponse := Some r; timestamp := timestamp m;
     isStreaming := isStreaming m |}.

(** [{ ...m, isStreaming: b }] *)
Definition withIsStreaming (m : Message) (b : bool) : Message :=
  {| id := id m; type := type m; content := content m;
     agentResponse := agentResponse m; timestamp := timestamp m;
     isStreaming := Some b |}.

(** The updater of [updateAgentMsg] (lines 157-163):
    [prev.map(m => m.id === agentMsgId
       ? { ...m, agentResponse: { ...m.agentResponse!, ...updates } } : m)].
    Spreading an undefined [agentResponse] contributes no property. *)
Definition updateAgentMsg (agentMsgId : string) (updates : AgentResponse)
    (prev : list Message) : list Message :=
  map (λ m, if String.eqb (id m) agentMsgId
            then withAgentResponse m (spread (default ∅ (agentResponse m)) updates)
            else m) prev.

(** The updater of line 215. *)
Definition stopStreaming (agentMsgId : string) (prev : list Message) : list Message :=
  map (λ m, if String.eqb (id m) agentMsgId then withIsStreaming m false else m) prev.

(** ** Effects of an asynchronous function *)

Inductive Effect :=
| SetIsProcessing (b : bool)
| SetInputValue (v : string)
| SetCurrentProcessLog (l : string)
| AppendMessage (m : Message)                 (* setMessages(prev => [...prev, m]) *)
| UpdateAgentMsg (agentMsgId : string) (updates : AgentResponse)
| StopStreaming (agentMsgId : string)
| Await (ms : Z)                              (* await new Promise(r => setTimeout(r, ms)) *)
| Throw (cause : string).                     (* a statement that raises *)

Definition applyEffect (e : Effect) (s : State) : State :=
  match e with
  | SetIsProcessing b => setIsProcessing b s
  | SetInputValue v => setInputValue v s
  | SetCurrentProcessLog l => setCurrentProcessLog l s
  | AppendMessage m => setMessages (λ prev, (prev ++ [m])%list) s
  | UpdateAgentMsg i u => setMessages (updateAgentMsg i u) s
  | StopStreaming i => setMessages (stopStreaming i) s
  | Await _ => s
  | Throw _ => s
  end.

(** The four clock readings of the synchronous prefix of the flow, in
    program order: [Date.now()] (line 133), [new Date()] (138),
    [Date.now()] (142), [new Date()] (153). *)
Record Clock := {
  userIdNow : Z;
  userStamp : Z;
  agentIdNow : Z;
  agentStamp : Z
}.

(** ** The scripted stage updates (lines 174-213) *)

Definition extractUpdate : AgentResponse :=
  {[ "product_json" := VProduct
       {| product_name := Some (NotNull "Crunchy Nut & Honey Bar");
          company_name := Some (NotNull "Nature's Fuel");
          IngredientList := ["Whole Grain Oats"; "Roasted Peanuts"; "Almond Butter";
                             "High Fructose Corn Syrup"; "Soy Lecithin"; "Salt"];
          NutritionFacts := [("Calories", "240"); ("Total Fat", "12g");
                             ("Added Sugars", "14g")];
          MarketingClaims := ["Natural Energy"; "Heart Healthy"] |} ]}.

Definition reasonUpdate : AgentResponse :=
  {[ "plan" := VString "⚠️ DETECTED ALLERGEN: 'Peanuts'. User profile indicates severe Peanut Allergy. Checking cross-contamination risks with 'Almond Butter'." ]}.

Definition searchUpdate : AgentResponse :=
  {[ "search_needed" := VBool true;
     "search_queries" := VStrings ["peanut allergy severity thresholds";
                                   "Nature's Fuel manufacturing cross-contamination"] ]}.

Definition verdictUpdate : AgentResponse :=
  {[ "final_verdict" := VVerdict AVOID;
     "reasoning" := VString "CRITICAL ALERT: This product contains Peanuts. Your profile lists a severe Peanut Allergy. Consuming this poses a high risk of anaphylaxis. Additionally, the 'High Fructose Corn Syrup' conflicts with your goal to reduce glycemic spikes.";
     "next_suggestion" := VStrings ["Find peanut-free alternative";
                                    "Report incorrect labeling";
                                    "View emergency protocol"] ]}.

(** ** [simulateAgentFlow] (lines 129-218) *)

Definition userMsgId (clk : Clock) : string := toString (userIdNow clk).
Definition agentMsgId (clk : Clock) : string := toString (agentIdNow clk + 1).

Definition initialResponse (query : string) (imageData : option string) : AgentResponse :=
  {[ "user_query" := VString query; "image_data" := ofNullable imageData ]}.

Definition userMessage (query : string) (clk : Clock) : Message :=
  {| id := userMsgId clk; type := user;
     content := orElse query "Scanning uploaded label...";
     agentResponse := None; timestamp := userStamp clk; isStreaming := None |}.

Definition agentMessage (query : string) (imageData : option string) (clk : Clock) : Message :=
  {| id := agentMsgId clk; type := agent; content := "";
     agentResponse := Some (initialResponse query imageData);
     timestamp := agentStamp clk; isStreaming := Some true |}.

Definition simulateAgentFlow (query : string) (imageData : option string)
    (clk : Clock) : list Effect :=
  [ SetIsProcessing true;
    AppendMessage (userMessage query clk);
    AppendMessage (agentMessage query imageData clk);
    (* Step 1: Scanning *)
    SetCurrentProcessLog "SCANNING IMAGE PIXELS...";
    Await 1000;
    (* Step 2: Extraction *)
    SetCurrentProcessLog "EXTRACTING ENTITIES VIA GEMINI 2.0...";
    Await 800;
    UpdateAgentMsg (agentMsgId clk) extractUpdate;
    (* Step 3: Reasoning *)
    SetCurrentProcessLog "CROSS-REFERENCING HEALTH PROFILE...";
    Await 1000;
    UpdateAgentMsg (agentMsgId clk) reasonUpdate;
    (* Step 4: Search *)
    SetCurrentProcessLog "VERIFYING ANAPHYLAXIS PROTOCOLS...";
    Await 1200;
    UpdateAgentMsg (agentMsgId clk) searchUpdate;
    (* Step 5: Verdict *)
    SetCurrentProcessLog "GENERATING SAFETY VERDICT...";
    Await 800;
    UpdateAgentMsg (agentMsgId clk) verdictUpdate;
    StopStreaming (agentMsgId clk);
    SetIsProcessing false;
    SetCurrentProcessLog "" ].

(** Running a list of effects to the end, waits included: the state a
    flow leaves when nothing else runs in between. *)
Definition run (k : list Effect) (s : State) : State :=
  fold_left (λ s e, applyEffect e s) k s.

(** ** The flow as a stage script

    The body of [simulateAgentFlow] repeats one pattern per step:
    publish a label, wait, then merge the step's update (the first step
    merges nothing).  [runStages] is that control flow with the steps
    taken from a list; [simulateAgentFlow] is [runStages] at
    [scriptedStages] (lemma [simulateAgentFlow_runStages]).  A step whose
    work raises is a [Throw]: the function has no [try], so the
    exception leaves it and the rest of its body does not run.  The
    stage names are the specification's; the comments of the source call
    the steps Scanning, Extraction, Reasoning, Search and Verdict. *)

Inductive Outcome :=
| Silent
| Yields (updates : AgentResponse)
| Raises (cause : string).

Record Stage := {
  stageName : string;
  label : string;
  delay : Z;
  outcome : Outcome
}.

Definition mergeEffects (agentMsgId : string) (st : Stage) : list Effect :=
  match outcome st with
  | Silent => []
  | Yields u => [UpdateAgentMsg agentMsgId u]
  | Raises c => [Throw c]
  end.

Definition stageEffects (agentMsgId : string) (st : Stage) : list Effect :=
  ([SetCurrentProcessLog (label st); Await (delay st)]
   ++ mergeEffects agentMsgId st)%list.

Definition prologue (query : string) (imageData : option string) (clk : Clock)
    : list Effect :=
  [ SetIsProcessing true;
    AppendMessage (userMessage query clk);
    AppendMessage (agentMessage query imageData clk) ].

Definition epilogue (clk : Clock) : list Effect :=
  [ StopStreaming (agentMsgId clk); SetIsProcessing false; SetCurrentProcessLog "" ].

Definition runStages (stages : list Stage) (query : string)
    (imageData : option string) (clk : Clock) : list Effect :=
  (prologue query imageData clk
   ++ flat_map (stageEffects (agentMsgId clk)) stages
   ++ epilogue clk)%list.

Definition scanStage : Stage :=
  {| stageName := "scan"; label := "SCANNING IMAGE PIXELS...";
     delay := 1000; outcome := Silent |}.
Definition extractStage : Stage :=
  {| stageName := "extract"; label := "EXTRACTING ENTITIES VIA GEMINI 2.0...";
     delay := 800; outcome := Yields extractUpdate |}.
Definition reasonStage : Stage :=
  {| stageName := "reason"; label := "CROSS-REFERENCING HEALTH PROFILE...";
     delay := 1000; outcome := Yields reasonUpdate |}.
Definition searchStage : Stage :=
  {| stageName := "search"; label := "VERIFYING ANAPHYLAXIS PROTOCOLS...";
     delay := 1200; outcome := Yields searchUpdate |}.
Definition verdictStage : Stage :=
  {| stageName := "verdict"; label := "GENERATING SAFETY VERDICT...";
     delay := 800; outcome := Yields verdictUpdate |}.

Definition scriptedStages : list Stage :=
  [scanStage; extractStage; reasonStage; searchStage; verdictStage].

(** ** The component: handlers and the event loop *)

(** How a call of an asynchronous function stands after it has run as far
    as it can. *)
Inductive Settled :=
| Pending (k : list Effect)      (* waiting on a timer, [k] still to run *)
| Fulfilled
| Rejected (cause : string).

Fixpoint resume (k : list Effect) (s : State) : State * Settled :=
  match k with
  | [] => (s, Fulfilled)
  | Await _ :: k' => (s, Pending k')
  | Throw c :: _ => (s, Rejected c)
  | e :: k' => resume k' (applyEffect e s)
  end.

(** The page: the React state, the files whose read is in progress and
    the flows waiting on a timer. *)
Record World := {
  ui : State;
  reading : list string;
  pending : list (list Effect)
}.

Definition initialWorld : World :=
  {| ui := initialState; reading := []; pending := [] |}.

Definition settle (r : Settled) : list (list Effect) :=
  match r with Pending k => [k] | _ => [] end.

(** Calling an asynchronous function without awaiting it: it runs to its
    first wait; nobody handles its rejection. *)
Definition start (k : list Effect) (w : World) : World :=
  let '(s, r) := resume k (ui w) in
  {| ui := s; reading := reading w; pending := (pending w ++ settle r)%list |}.

(** [handleSubmit] (lines 220-226). *)
Definition handleSubmit (clk : Clock) (w : World) : World :=
  if truthy (trim (inputValue (ui w))) && negb (isProcessing (ui w))
  then
    let w' := start (simulateAgentFlow (inputValue (ui w)) None clk) w in
    {| ui := setInputValue "" (ui w'); reading := reading w'; pending := pending w' |}
  else w.

(** [handleFileSelect] (lines 115-126): [file] is [event.target.files?.[0]],
    a file given by its name; a reader is created for it and the read
    starts. *)
Definition handleFileSelect (file : option string) (w : World) : World :=
  match file with
  | Some name =>
      {| ui := ui w; reading := (reading w ++ [name])%list; pending := pending w |}
  | None => w
  end.

(** [reader.onloadend] (lines 119-123) for the [i]-th read in progress.
    The event fires when the read has ended, whether it succeeded or not:
    [result] is [reader.result], the data URL after a successful read and
    null after a failed or aborted one; the handler passes it on as it
    is. *)
Definition onloadend (i : nat) (result : option string) (clk : Clock) (w : World)
    : World :=
  match reading w !! i with
  | Some _ =>
      start (simulateAgentFlow "Analyze this label" result clk)
        {| ui := ui w; reading := delete i (reading w); pending := pending w |}
  | None => w
  end.

(** The click handler of a suggestion button (line 405):
    [!isProcessing && simulateAgentFlow(s, null)]. *)
Definition clickSuggestion (suggestion : string) (clk : Clock) (w : World) : World :=
  if negb (isProcessing (ui w))
  then start (simulateAgentFlow suggestion None clk) w
  else w.

(** The click handler of the "Research Safety" button (line 295). *)
Definition clickResearch (clk : Clock) (w : World) : World :=
  start (simulateAgentFlow "Is Ashwagandha safe for hypothyroidism?" None clk) w.

(** [onChange] of the text input (line 465). *)
Definition handleChange (v : string) (w : World) : World :=
  {| ui := setInputValue v (ui w); reading := reading w; pending := pending w |}.

(** The timer of the [i]-th waiting flow fires. *)
Definition timerFired (i : nat) (w : World) : World :=
  match pending w !! i with
  | Some k =>
      let '(s, r) := resume k (ui w) in
      {| ui := s; reading := reading w;
         pending := match r with
                    | Pending k' => <[i:=k']> (pending w)
                    | _ => delete i (pending w)
                    end |}
  | None => w
  end.

Inductive Event :=
| Change (v : string)
| Submit (clk : Clock)
| FileSelect (file : option string)
| LoadEnd (i : nat) (result : option string) (clk : Clock)
| Suggestion (s : string) (clk : Clock)
| Research (clk : Clock)
| Timer (i : nat).

Definition dispatch (e : Event) (w : World) : World :=
  match e with
  | Change v => handleChange v w
  | Submit clk => handleSubmit clk w
  | FileSelect f => handleFileSelect f w
  | LoadEnd i result clk => onloadend i result clk w
  | Suggestion s clk => clickSuggestion s clk w
  | Research clk => clickResearch clk w
  | Timer i => timerFired i w
  end.

Definition dispatchAll (es : list Event) (w : World) : World :=
  fold_left (λ w e, dispatch e w) es w.

(** ** Observations used in the statements *)

(** What one effect does to one message of the log. *)
Definition effectOnMessage (e : Effect) (m : Message) : Message :=
  match e with
  | UpdateAgentMsg i u =>
      if String.eqb (id m) i
      then withAgentResponse m (spread (default ∅ (agentResponse m)) u)
      else m
  | StopStreaming i => if String.eqb (id m) i then withIsStreaming m false else m
  | _ => m
  end.

Definition onMessage (k : list Effect) (m : Message) : Message :=
  fold_left (λ m e, effectOnMessage e m) k m.

(** The message an effect appends, if any. *)
Definition appended (e : Effect) : list Message :=
  match e with AppendMessage m => [m] | _ => [] end.

(** The messages a list of effects appends, each as the later effects
    leave it. *)
Fixpoint news (k : list Effect) : list Message :=
  match k with
  | [] => []
  | e :: k' => (map (onMessage k') (appended e) ++ news k')%list
  end.

(** The part of a turn that no update touches. *)
Definition frame (m : Message) : string * Role * string * Z :=
  (id m, type m, content m, timestamp m).

(** A property of a turn's result: [m.agentResponse?.[f]]. *)
Definition field (f : string) (m : Message) : option Value :=
  agentResponse m ≫= (.!! f).

(** The turn at a position of the log. *)
Definition turnAt (i : nat) (s : State) : option Message := messages s !! i.

(** The agent turn of a flow started in state [s0] is the second message
    it appends. *)
Definition agentTurn (s0 s : State) : option Message :=
  turnAt (length (messages s0) + 1) s.

Definition userTurn (s0 s : State) : option Message :=
  turnAt (length (messages s0)) s.

(** Kinds of effects. *)
Definition isStop (e : Effect) : bool :=
  match e with StopStreaming _ => true | _ => false end.

Definition isAppend (e : Effect) : bool :=
  match e with AppendMessage _ => true | _ => false end.

Definition isThrow (e : Effect) : bool :=
  match e with Throw _ => true | _ => false end.

Definition isSetIsProcessing (e : Effect) : bool :=
  match e with SetIsProcessing _ => true | _ => false end.

(** Whether an effect sets the property [f] of a result. *)
Definition writes (f : string) (e : Effect) : bool :=
  match e with
  | UpdateAgentMsg _ u => bool_decide (is_Some (u !! f))
  | _ => false
  end.

Definition raises (st : Stage) : bool :=
  match outcome st with Raises _ => true | _ => false end.

(** The effects a flow performs before its first wait (or before it
    raises). *)
Fixpoint ranBy (k : list Effect) : list Effect :=
  match k with
  | [] => []
  | Await _ :: _ => []
  | Throw _ :: _ => []
  | e :: k' => e :: ranBy k'
  end.

(** Running a flow alone to its end or to the statement that raises. *)
Fixpoint finish (k : list Effect) (s : State) : State * option string :=
  match k with
  | [] => (s, None)
  | Throw c :: _ => (s, Some c)
  | e :: k' => finish k' (applyEffect e s)
  end.

(** The timers a flow waits on before it ends or raises. *)
Fixpoint waits (k : list Effect) : nat :=
  match k with
  | [] => 0
  | Throw _ :: _ => 0
  | Await _ :: k' => S (waits k')
  | _ :: k' => waits k'
  end.

(** The properties a stage sets. *)
Definition sets (st : Stage) : gset string :=
  match outcome st with Yields u => dom u | _ => ∅ end.

(** The stage part of the flow, between the prologue and the epilogue. *)
Definition stagePart (clk : Clock) : list Effect :=
  flat_map (stageEffects (agentMsgId clk)) scriptedStages.

(** What the stages of a list have merged into a result. *)
Definition accumulated (stages : list Stage) (r : AgentResponse) : AgentResponse :=
  fold_left (λ r st, match outcome st with Yields u => spread r u | _ => r end)
    stages r.

(** The scripted result: the four updates, merged in stage order. *)
Definition scriptedResult : AgentResponse :=
  accumulated scriptedStages ∅.

(** A list of effects is additive over the properties [d] already set
    when every update in it sets only properties that nothing before
    it has set. *)
Fixpoint additive (d : gset string) (k : list Effect) : Prop :=
  match k with
  | [] => True
  | UpdateAgentMsg _ u :: k' => dom u ## d ∧ additive (dom u ∪ d) k'
  | _ :: k' => additive d k'
  end.

(** The update of a stage is in a result: every field the stage sets is
    there, with the value the stage gave it. *)
Definition merged (st : Stage) (r : AgentResponse) : Prop :=
  match outcome st with Yields u => u ⊆ r | _ => True end.

(** The stages of a list set fields that neither [d] nor an earlier stage
    of the list has. *)
Fixpoint disjointStages (d : gset string) (stages : list Stage) : Prop :=
  match stages with
  | [] => True
  | st :: rest => sets st ## d ∧ disjointStages (sets st ∪ d) rest
  end.

(** The result of a turn, empty when it has none. *)
Definition response (m : Message) : AgentResponse := default ∅ (agentResponse m).

Definition mkWorld (s : State) (rd : list string) (p : list (list Effect)) : World :=
  {| ui := s; reading := rd; pending := p |}.

(** The timer of the flow started last fires [n] times. *)
Definition timers (n : nat) (w : World) : list Event :=
  replicate n (Timer (length (pending w))).

(** The events whose handlers either start no flow or test
    [isProcessing] before they start one. *)
Definition guarded (e : Event) : bool :=
  match e with
  | Change _ | Submit _ | FileSelect _ | Suggestion _ _ => true
  | LoadEnd _ _ _ | Research _ | Timer _ => false
  end.

(** ** Sample inputs *)

Definition clockA : Clock :=
  {| userIdNow := 1700000000000; userStamp := 1700000000000;
     agentIdNow := 1700000000000; agentStamp := 1700000000001 |}.

Definition clockB : Clock :=
  {| userIdNow := 1700000000050; userStamp := 1700000000050;
     agentIdNow := 1700000000050; agentStamp := 1700000000050 |}.

Definition sampleFile : string := "label.png".

Definition sampleImage : string := "data:image/png;base64,iVBORw0KGgo=".

(** The page after the user has typed a question, picked a file and
    submitted the question: the question's flow is waiting on its first
    timer and the file is still being read. *)
Definition busyWorld : World :=
  dispatchAll [Change "Is X safe?"; FileSelect (Some sampleFile); Submit clockA]
    initialWorld.

(** The same page when the read has ended within the millisecond of the
    submission, with the data URL of the file, and the timers of the two
    flows have fired in turn, the first flow's first each time (it was
    started first): four timers each. *)
Definition overlappedWorld : World :=
  dispatchAll [Timer 0; Timer 1; Timer 0; Timer 1; Timer 0; Timer 1; Timer 0; Timer 1]
    (onloadend 0 (Some sampleImage) clockA busyWorld).

(** ** What the page renders (the conditions of the JSX, lines 265-477) *)

(** Truthiness of a property value. *)
Definition truthyValue (v : Value) : bool :=
  match v with
  | VNull => false
  | VString s => truthy s
  | VBool b => b
  | VStrings _ | VProfile _ | VProduct _ | VVerdict _ => true
  end.

(** [msg.agentResponse.f && ...] in the agent branch of the message
    stream (lines 319-417); a user message renders its text only. *)
Definition shown (f : string) (m : Message) : bool :=
  match type m with
  | user => false
  | agent => match field f m with Some v => truthyValue v | None => false end
  end.

(** The sections of an agent message, in the order of lines 329-414. *)
Record Sections := {
  imagePreview : bool;
  productGrid : bool;
  planTrace : bool;
  verdictBadge : bool;
  reasoningText : bool;
  nextSteps : bool
}.

Definition render (m : Message) : Sections :=
  {| imagePreview := shown "image_data" m;
     productGrid := shown "product_json" m;
     planTrace := shown "plan" m;
     verdictBadge := shown "final_verdict" m;
     reasoningText := shown "reasoning" m;
     nextSteps := shown "next_suggestion" m |}.

(** [messages.length === 0 && !isProcessing] (line 265). *)
Definition showEmptyState (s : State) : bool :=
  (length (messages s) =? 0)%nat && negb (isProcessing s).

(** [isProcessing && currentProcessLog] (line 425). *)
Definition showThinking (s : State) : bool :=
  isProcessing s && truthy (currentProcessLog s).

(** [disabled={!inputValue.trim() || isProcessing}] (line 473). *)
Definition submitDisabled (s : State) : bool :=
  negb (truthy (trim (inputValue s))) || isProcessing s.

(** ** More about flows and events *)

(** What is left of a flow when its timer has fired [j] times after its
    start. *)
Fixpoint afterWait (j : nat) (k : list Effect) : list Effect :=
  match k with
  | [] => []
  | Await _ :: k' => match j with O => k' | S j' => afterWait j' k' end
  | _ :: k' => afterWait j k'
  end.

(** How a flow stands when it has run as far as it can: the second
    component of [resume]. *)
Fixpoint outcomeOf (k : list Effect) : Settled :=
  match k with
  | [] => Fulfilled
  | Await _ :: k' => Pending k'
  | Throw c :: _ => Rejected c
  | _ :: k' => outcomeOf k'
  end.

(** The "Research Safety" button is an element of the empty state
    (lines 265-308): its click can occur only while that is rendered. *)
Definition possible (e : Event) (w : World) : bool :=
  match e with
  | Research _ => showEmptyState (ui w)
  | _ => true
  end.

Definition step (w : World) (e : Event) : World :=
  if possible e w then dispatch e w else w.

Definition play (es : list Event) (w : World) : World := fold_left step es w.

Definition isLoadEnd (e : Event) : bool :=
  match e with LoadEnd _ _ _ => true | _ => false end.

(** A turn in flight. *)
Definition streaming (m : Message) : bool :=
  match isStreaming m with Some true => true | _ => false end.

(** An effect that addresses a message addresses the one with id [i]. *)
Definition addressedTo (i : string) (e : Effect) : bool :=
  match e with
  | UpdateAgentMsg j _ | StopStreaming j => String.eqb j i
  | _ => true
  end.

(** The session is idle with no turn in flight, or one flow is waiting
    and its agent turn, the last of the log, is the only one in flight. *)
Inductive Phase (w : World) : Prop :=
| Idle :
    isProcessing (ui w) = false → pending w = [] →
    Forall (λ m, streaming m = false) (messages (ui w)) → Phase w
| Busy (q : string) (img : option string) (clk : Clock) (j : nat)
       (ms : list Message) (a : Message) :
    (j < 5)%nat → isProcessing (ui w) = true →
    pending w = [afterWait j (simulateAgentFlow q img clk)] →
    messages (ui w) = ms ++ [a] →
    Forall (λ m, streaming m = false) ms →
    id a = agentMsgId clk → isStreaming a = Some true → Phase w.

(** The log is a sequence of pairs, a user turn and then its agent turn,
    and no waiting flow will append anything. *)
Definition paired (w : World) : Prop :=
  (∃ n, map type (messages (ui w)) = concat (replicate n [user; agent]))
  ∧ Forall (Forall (λ e, isAppend e = false)) (pending w).

(** A clock that stepped back one millisecond between the two readings
    of [Date.now()]. *)
Definition clockBack : Clock :=
  {| userIdNow := 1700000000100; userStamp := 1700000000100;
     agentIdNow := 1700000000099; agentStamp := 1700000000099 |}.

(** * Lemmas *)

(** ** Object spread *)

Lemma lookup_spread (a b : AgentResponse) (f : string) :
  spread a b !! f = match b !! f with Some v => Some v | None => a !! f end.
Proof.
  unfold spread. rewrite lookup_union. destruct (b !! f), (a !! f); reflexivity.
Qed.

Lemma spread_empty_r (a : AgentResponse) : spread a ∅ = a.
Proof. unfold spread. apply (left_id_L ∅ (∪)). Qed.

(** ** The log under effects *)

Lemma frame_effectOnMessage e m : frame (effectOnMessage e m) = frame m.
Proof.
  destruct e; simpl; try reflexivity; destruct (String.eqb _ _); reflexivity.
Qed.

Lemma frame_onMessage k m : frame (onMessage k m) = frame m.
Proof.
  revert m. induction k as [|e k IH]; intros m; simpl; [reflexivity|].
  unfold onMessage in IH. rewrite IH. apply frame_effectOnMessage.
Qed.

Lemma messages_applyEffect e s :
  messages (applyEffect e s) = (map (effectOnMessage e) (messages s) ++ appended e)%list.
Proof.
  destruct e; simpl; rewrite ?app_nil_r, ?map_id; try reflexivity.
  all: symmetry; apply map_ext; reflexivity || (intros; reflexivity).
Qed.

Lemma onMessage_cons e k m : onMessage (e :: k) m = onMessage k (effectOnMessage e m).
Proof. reflexivity. Qed.

Lemma onMessage_app k1 k2 m : onMessage (k1 ++ k2) m = onMessage k2 (onMessage k1 m).
Proof. unfold onMessage. apply fold_left_app. Qed.

Lemma run_cons e k s : run (e :: k) s = run k (applyEffect e s).
Proof. reflexivity. Qed.

Lemma run_app k1 k2 s : run (k1 ++ k2) s = run k2 (run k1 s).
Proof. unfold run. apply fold_left_app. Qed.

Lemma messages_run k s :
  messages (run k s) = (map (onMessage k) (messages s) ++ news k)%list.
Proof.
  revert s. induction k as [|e k IH]; intros s.
  - simpl. rewrite app_nil_r. symmetry. apply map_id.
  - rewrite run_cons, IH, messages_applyEffect, map_app, map_map. simpl.
    rewrite <- app_assoc. reflexivity.
Qed.

Lemma news_no_append k : Forall (λ e, isAppend e = false) k → news k = [].
Proof.
  induction 1 as [|e k He _ IH]; simpl; [reflexivity|].
  rewrite IH, app_nil_r. destruct e; simpl in *; congruence.
Qed.

Lemma id_onMessage k m : id (onMessage k m) = id m.
Proof. pose proof (frame_onMessage k m) as H. unfold frame in H. congruence. Qed.

Lemma isStreaming_onMessage k m :
  Forall (λ e, isStop e = false) k → isStreaming (onMessage k m) = isStreaming m.
Proof.
  intros H. revert m. induction H as [|e k He _ IH]; intros m; [reflexivity|].
  rewrite onMessage_cons, IH.
  destruct e; simpl in *; try reflexivity; try discriminate.
  destruct (String.eqb _ _); reflexivity.
Qed.

Lemma field_withAgentResponse f m r : field f (withAgentResponse m r) = r !! f.
Proof. reflexivity. Qed.

Lemma field_response f m : field f m = response m !! f.
Proof. unfold field, response. destruct (agentResponse m); reflexivity. Qed.

Lemma field_update f i u m :
  field f (effectOnMessage (UpdateAgentMsg i u) m) =
  if String.eqb (id m) i
  then match u !! f with Some v => Some v | None => field f m end
  else field f m.
Proof.
  simpl. destruct (String.eqb _ _); [|reflexivity].
  rewrite field_withAgentResponse, lookup_spread, field_response. reflexivity.
Qed.

Lemma field_effect_untouched f e m :
  writes f e = false → field f (effectOnMessage e m) = field f m.
Proof.
  destruct e; try reflexivity.
  - simpl writes. intros H. rewrite field_update.
    destruct (String.eqb _ _); [|reflexivity].
    destruct (updates !! f) eqn:E; [|reflexivity].
    apply bool_decide_eq_false in H. destruct H. eauto.
  - intros _. simpl. destruct (String.eqb _ _); reflexivity.
Qed.

Lemma field_onMessage_untouched f k m :
  Forall (λ e, writes f e = false) k → field f (onMessage k m) = field f m.
Proof.
  intros H. revert m. induction H as [|e k He _ IH]; intros m; [reflexivity|].
  rewrite onMessage_cons, IH. apply field_effect_untouched, He.
Qed.

(** The string comparison of [===]. *)
Lemma eqb_self (x : string) : String.eqb x x = true.
Proof. apply String.eqb_refl. Qed.

Lemma stop_self m : effectOnMessage (StopStreaming (id m)) m = withIsStreaming m false.
Proof. simpl. rewrite eqb_self. reflexivity. Qed.

(** ** Where the turns of a flow are *)

Lemma messages_flow q img clk body s :
  Forall (λ e, isAppend e = false) body →
  messages (run (prologue q img clk ++ body) s) =
  (map (onMessage (prologue q img clk ++ body)) (messages s)
     ++ [onMessage body (userMessage q clk); onMessage body (agentMessage q img clk)])%list.
Proof.
  intros H. rewrite messages_run. f_equal. simpl. rewrite (news_no_append body H).
  reflexivity.
Qed.

Lemma userTurn_flow q img clk body s :
  Forall (λ e, isAppend e = false) body →
  userTurn s (run (prologue q img clk ++ body) s) = Some (onMessage body (userMessage q clk)).
Proof.
  intros H. unfold userTurn, turnAt. rewrite messages_flow by exact H.
  rewrite lookup_app_r by (rewrite length_map; lia).
  rewrite length_map. replace (_ - _)%nat with 0%nat by lia. reflexivity.
Qed.

Lemma agentTurn_flow q img clk body s :
  Forall (λ e, isAppend e = false) body →
  agentTurn s (run (prologue q img clk ++ body) s) = Some (onMessage body (agentMessage q img clk)).
Proof.
  intros H. unfold agentTurn, turnAt. rewrite messages_flow by exact H.
  rewrite lookup_app_r by (rewrite length_map; lia).
  rewrite length_map. replace (_ - _)%nat with 1%nat by lia. reflexivity.
Qed.

Lemma stageEffects_no_append i st : Forall (λ e, isAppend e = false) (stageEffects i st).
Proof. unfold stageEffects, mergeEffects. destruct (outcome st); repeat constructor. Qed.

Lemma stageEffects_no_stop i st : Forall (λ e, isStop e = false) (stageEffects i st).
Proof. unfold stageEffects, mergeEffects. destruct (outcome st); repeat constructor. Qed.

Lemma stages_no_append i stages :
  Forall (λ e, isAppend e = false) (flat_map (stageEffects i) stages).
Proof.
  induction stages as [|st stages IH]; cbn [flat_map]; [constructor|].
  apply Forall_app_2; [apply stageEffects_no_append | exact IH].
Qed.

Lemma stages_no_stop i stages :
  Forall (λ e, isStop e = false) (flat_map (stageEffects i) stages).
Proof.
  induction stages as [|st stages IH]; cbn [flat_map]; [constructor|].
  apply Forall_app_2; [apply stageEffects_no_stop | exact IH].
Qed.

Lemma epilogue_no_append clk : Forall (λ e, isAppend e = false) (epilogue clk).
Proof. repeat constructor. Qed.

(** ** Flows alone: [finish] and [run] *)

Lemma finish_no_throw k s :
  Forall (λ e, isThrow e = false) k → finish k s = (run k s, None).
Proof.
  intros H. revert s. induction H as [|e k He _ IH]; intros s; [reflexivity|].
  rewrite run_cons, <- IH. destruct e; try reflexivity. discriminate.
Qed.

(** ** The event loop drives a flow as [finish] runs it *)

Lemma start_mkWorld k w :
  start k w =
  let '(s, r) := resume k (ui w) in mkWorld s (reading w) (pending w ++ settle r).
Proof. reflexivity. Qed.

Lemma timerFired_last s rd p k :
  timerFired (length p) (mkWorld s rd (p ++ [k])) =
  let '(s', r) := resume k s in mkWorld s' rd (p ++ settle r).
Proof.
  unfold timerFired. cbn [pending ui reading mkWorld].
  rewrite list_lookup_middle by reflexivity.
  destruct (resume k s) as [s' r]. unfold mkWorld. f_equal.
  destruct r; cbn [settle].
  - rewrite insert_app_r_alt by lia. rewrite Nat.sub_diag. reflexivity.
  - rewrite delete_middle. reflexivity.
  - rewrite delete_middle. reflexivity.
Qed.

Lemma dispatchAll_cons e es w : dispatchAll (e :: es) w = dispatchAll es (dispatch e w).
Proof. reflexivity. Qed.

Lemma dispatchAll_app es1 es2 w :
  dispatchAll (es1 ++ es2) w = dispatchAll es2 (dispatchAll es1 w).
Proof. unfold dispatchAll. apply fold_left_app. Qed.

Lemma drive_finish k s rd p :
  dispatchAll (replicate (waits k) (Timer (length p)))
    (let '(s', r) := resume k s in mkWorld s' rd (p ++ settle r))
  = mkWorld (fst (finish k s)) rd p.
Proof.
  revert s. induction k as [|e k IH]; intros s.
  - simpl. rewrite app_nil_r. reflexivity.
  - destruct e; try (cbn [resume waits finish]; apply IH).
    + (* Await *)
      cbn [resume waits finish replicate settle]. rewrite dispatchAll_cons.
      cbn [dispatch]. rewrite timerFired_last. apply IH.
    + (* Throw *)
      simpl. rewrite app_nil_r. reflexivity.
Qed.

(** A flow started on the page and left alone with its timers ends in
    the state [finish] computes, and is no longer waiting. *)
Lemma start_drive k w :
  dispatchAll (timers (waits k) w) (start k w)
  = mkWorld (fst (finish k (ui w))) (reading w) (pending w).
Proof. unfold timers. rewrite start_mkWorld. apply drive_finish. Qed.

(** The same, stopped at a wait: after the timers of [k1] the flow is
    waiting with [k2] still to run. *)
Lemma drive_to_wait k1 ms k2 s rd p :
  Forall (λ e, isThrow e = false) k1 →
  dispatchAll (replicate (waits k1) (Timer (length p)))
    (let '(s', r) := resume (k1 ++ Await ms :: k2) s in mkWorld s' rd (p ++ settle r))
  = mkWorld (run k1 s) rd (p ++ [k2]).
Proof.
  intros H. revert s. induction H as [|e k He _ IH]; intros s.
  - reflexivity.
  - destruct e; try discriminate;
      try (cbn [resume waits app]; rewrite run_cons; apply IH).
    cbn [resume waits app replicate settle]. rewrite dispatchAll_cons.
    cbn [dispatch]. rewrite timerFired_last. rewrite run_cons. apply IH.
Qed.

Lemma start_drive_to_wait k1 ms k2 w :
  Forall (λ e, isThrow e = false) k1 →
  dispatchAll (timers (waits k1) w) (start (k1 ++ Await ms :: k2) w)
  = mkWorld (run k1 (ui w)) (reading w) (pending w ++ [k2]).
Proof. intros H. unfold timers. rewrite start_mkWorld. apply drive_to_wait, H. Qed.

(** * The claims *)

(** ** C1 *)

(** C1, at the failing input. The question "Is X safe?" has been
    submitted and its flow is in flight ([isProcessing] is true) when the
    read of a selected file ends. [onloadend] calls [simulateAgentFlow]
    without looking at [isProcessing]: a second user turn and a second
    agent turn are appended and a second flow waits, where the claim
    says that no turn is appended. The text submission handler, at the
    same page, appends nothing. *)
Theorem C1_upload_while_processing_appends :
  isProcessing (ui busyWorld) = true
  ∧ map (λ m, (type m, content m)) (messages (ui busyWorld))
    = [(user, "Is X safe?"); (agent, "")]
  ∧ map (λ m, (type m, content m))
      (messages (ui (onloadend 0 (Some sampleImage) clockB busyWorld)))
    = [(user, "Is X safe?"); (agent, "");
       (user, "Analyze this label"); (agent, "")]
  ∧ length (pending busyWorld) = 1%nat
  ∧ length (pending (onloadend 0 (Some sampleImage) clockB busyWorld)) = 2%nat
  ∧ handleSubmit clockB (handleChange "Is Y safe?" busyWorld)
    = handleChange "Is Y safe?" busyWorld.
Proof. vm_compute. repeat split; reflexivity. Qed.

(** ** C5 *)

(** C5, counterexample. An update that sets [plan] on a result whose
    [plan] is already set does not fail: the new value replaces the old
    one. *)
Lemma C5_update_overwrites_set_field :
  let existing : AgentResponse :=
    {[ "user_query" := VString "Is X safe?"; "plan" := VString "first" ]} in
  let partial : AgentResponse := {[ "plan" := VString "second" ]} in
  let m := {| id := "1"; type := agent; content := "";
              agentResponse := Some existing; timestamp := 0;
              isStreaming := Some true |} in
  field "plan" m = Some (VString "first")
  ∧ map (field "plan") (updateAgentMsg "1" partial [m]) = [Some (VString "second")]
  ∧ spread existing partial !! "plan" = Some (VString "second").
Proof. vm_compute. repeat split; reflexivity. Qed.

(** C5, as amended. Merging never fails. Every field the partial sets has
    the partial's value in the result, whether or not the existing
    result had it set; every field the partial leaves unset keeps the
    existing value; the fields of the result are those of the two
    together (so when no field of the partial is set on the existing
    result, the result is their union). *)
Theorem C5_merge_is_right_biased_union (existing partial : AgentResponse) :
  (∀ f, spread existing partial !! f
        = match partial !! f with Some v => Some v | None => existing !! f end)
  ∧ dom (spread existing partial) = dom existing ∪ dom partial.
Proof.
  split; [intros f; apply lookup_spread|].
  unfold spread. rewrite dom_union_L. apply (comm_L (∪)).
Qed.

(** ** C9 *)

Lemma frame_news k : map frame (news k) = map frame (flat_map appended k).
Proof.
  induction k as [|e k IH]; [reflexivity|].
  cbn [news flat_map]. rewrite !map_app, IH, map_map. f_equal.
  apply map_ext. intros m. apply frame_onMessage.
Qed.

Lemma frame_run k s :
  map frame (messages (run k s))
  = (map frame (messages s) ++ map frame (flat_map appended k))%list.
Proof.
  rewrite messages_run, map_app, map_map, frame_news. f_equal.
  apply map_ext. intros m. apply frame_onMessage.
Qed.

(** Whatever a handler does to the React state, it does by effects. *)
Lemma resume_run k s : fst (resume k s) = run (ranBy k) s.
Proof.
  revert s. induction k as [|e k IH]; intros s; [reflexivity|].
  destruct e; cbn [resume ranBy]; rewrite ?run_cons; try apply IH; reflexivity.
Qed.

Lemma ui_start k w : ui (start k w) = run (ranBy k) (ui w).
Proof.
  rewrite <- resume_run. unfold start. destruct (resume k (ui w)). reflexivity.
Qed.

Lemma dispatch_run e w : ∃ k, ui (dispatch e w) = run k (ui w).
Proof.
  destruct e as [v|clk|f|i r clk|sg clk|clk|i]; cbn [dispatch].
  - by exists [SetInputValue v].
  - unfold handleSubmit. destruct (_ && _); [|by exists []].
    eexists (_ ++ [SetInputValue ""])%list. cbn [ui]. rewrite ui_start, run_app.
    reflexivity.
  - exists []. by destruct f.
  - unfold onloadend. destruct (reading w !! i); [|by exists []].
    eexists. rewrite ui_start. reflexivity.
  - unfold clickSuggestion. destruct (negb _); [|by exists []].
    eexists. apply ui_start.
  - eexists. apply ui_start.
  - unfold timerFired. destruct (pending w !! i) as [k|]; [|by exists []].
    exists (ranBy k). rewrite <- resume_run. destruct (resume k (ui w)). reflexivity.
Qed.

Lemma dispatchAll_run es w : ∃ k, ui (dispatchAll es w) = run k (ui w).
Proof.
  revert w. induction es as [|e es IH]; intros w; [by exists []|].
  rewrite dispatchAll_cons. destruct (IH (dispatch e w)) as [k2 H2].
  destruct (dispatch_run e w) as [k1 H1].
  exists (k1 ++ k2)%list. rewrite run_app, <- H1. exact H2.
Qed.

(** C9. The log keeps append order under any interleaving of appends and
    updates: after any list of effects the turns present before are still
    there, in the same order, each with its id, role, text and time
    stamp, followed by the appended turns in the order of their appends;
    nothing is inserted before the end, moved or removed. The same holds
    for the log of the page after any sequence of events. *)
Theorem C9_log_order_is_append_order :
  (∀ (k : list Effect) (s : State),
     map frame (messages (run k s))
     = (map frame (messages s) ++ map frame (flat_map appended k))%list)
  ∧ (∀ (es : list Event) (w : World), ∃ k : list Effect,
       ui (dispatchAll es w) = run k (ui w)
       ∧ map frame (messages (ui (dispatchAll es w)))
         = (map frame (messages (ui w)) ++ map frame (flat_map appended k))%list).
Proof.
  split; [apply frame_run|]. intros es w.
  destruct (dispatchAll_run es w) as [k H]. exists k. split; [exact H|].
  rewrite H. apply frame_run.
Qed.

(** ** What the stages do to the agent turn *)

Lemma onMessage_stage m st :
  onMessage (stageEffects (id m) st) m =
  match outcome st with
  | Yields u => withAgentResponse m (spread (response m) u)
  | _ => m
  end.
Proof.
  unfold stageEffects, mergeEffects. destruct (outcome st); try reflexivity.
  cbn [app]. rewrite !onMessage_cons. cbn [effectOnMessage onMessage fold_left].
  rewrite eqb_self. reflexivity.
Qed.

Lemma response_stage m st :
  response (onMessage (stageEffects (id m) st) m) =
  match outcome st with Yields u => spread (response m) u | _ => response m end.
Proof. rewrite onMessage_stage. destruct (outcome st); reflexivity. Qed.

Lemma response_stages stages m :
  response (onMessage (flat_map (stageEffects (id m)) stages) m)
  = accumulated stages (response m).
Proof.
  revert m. induction stages as [|st stages IH]; intros m; [reflexivity|].
  cbn [flat_map]. rewrite onMessage_app.
  rewrite <- (id_onMessage (stageEffects (id m) st) m) at 1.
  rewrite IH, response_stage. reflexivity.
Qed.

Lemma agentResponse_effect_Some e m :
  is_Some (agentResponse m) → is_Some (agentResponse (effectOnMessage e m)).
Proof.
  intros H. destruct e; try exact H; simpl; destruct (String.eqb _ _); eauto.
Qed.

Lemma agentResponse_onMessage_Some k m :
  is_Some (agentResponse m) → is_Some (agentResponse (onMessage k m)).
Proof.
  revert m. induction k as [|e k IH]; intros m H; [exact H|].
  rewrite onMessage_cons. apply IH, agentResponse_effect_Some, H.
Qed.

Lemma agentResponse_response m :
  is_Some (agentResponse m) → agentResponse m = Some (response m).
Proof. intros [r H]. unfold response. rewrite H. reflexivity. Qed.

Lemma agentResponse_stages stages q img clk :
  agentResponse (onMessage (flat_map (stageEffects (agentMsgId clk)) stages)
                   (agentMessage q img clk))
  = Some (accumulated stages (initialResponse q img)).
Proof.
  rewrite agentResponse_response by (apply agentResponse_onMessage_Some; cbn; eauto).
  f_equal. apply (response_stages stages (agentMessage q img clk)).
Qed.

(** ** A flow waiting on one of its stages *)

Lemma waits_app k1 k2 :
  Forall (λ e, isThrow e = false) k1 → waits (k1 ++ k2) = (waits k1 + waits k2)%nat.
Proof.
  induction 1 as [|e k He _ IH]; [reflexivity|].
  destruct e; simpl in *; try exact IH; try discriminate. f_equal. exact IH.
Qed.

Lemma stages_no_throw i stages :
  Forall (λ st, raises st = false) stages →
  Forall (λ e, isThrow e = false) (flat_map (stageEffects i) stages).
Proof.
  induction 1 as [|st stages Hst _ IH]; cbn [flat_map]; [constructor|].
  apply Forall_app_2; [|exact IH].
  unfold stageEffects, mergeEffects. unfold raises in Hst.
  destruct (outcome st); try discriminate; repeat constructor.
Qed.

Lemma waits_stages i stages :
  Forall (λ st, raises st = false) stages →
  waits (flat_map (stageEffects i) stages) = length stages.
Proof.
  induction 1 as [|st stages Hst H IH]; [reflexivity|].
  cbn [flat_map length]. unfold stageEffects at 1. cbn [app waits]. f_equal.
  unfold mergeEffects. unfold raises in Hst.
  destruct (outcome st); try discriminate; cbn [app waits]; exact IH.
Qed.

(** The effects of a flow up to the wait of the stage after [done]. *)
Lemma runStages_split done st rest q img clk :
  runStages (done ++ st :: rest) q img clk =
  ((prologue q img clk ++ flat_map (stageEffects (agentMsgId clk)) done
      ++ [SetCurrentProcessLog (label st)])
   ++ Await (delay st)
      :: (mergeEffects (agentMsgId clk) st
            ++ flat_map (stageEffects (agentMsgId clk)) rest ++ epilogue clk))%list.
Proof.
  unfold runStages. rewrite flat_map_app. cbn [flat_map]. unfold stageEffects at 2.
  rewrite <- !app_assoc. reflexivity.
Qed.

Lemma before_wait_no_throw done l q img clk :
  Forall (λ st, raises st = false) done →
  Forall (λ e, isThrow e = false)
    (prologue q img clk ++ flat_map (stageEffects (agentMsgId clk)) done
       ++ [SetCurrentProcessLog l]).
Proof.
  intros H. apply Forall_app_2; [repeat constructor|].
  apply Forall_app_2; [apply stages_no_throw, H | repeat constructor].
Qed.

Lemma before_wait_waits done l q img clk :
  Forall (λ st, raises st = false) done →
  waits (prologue q img clk ++ flat_map (stageEffects (agentMsgId clk)) done
           ++ [SetCurrentProcessLog l]) = length done.
Proof.
  intros H. cbn [prologue app waits].
  rewrite waits_app by (apply stages_no_throw, H).
  rewrite waits_stages by exact H. simpl. lia.
Qed.

(** After as many timers as there are stages in [done], the flow has run
    the stages of [done], has published the label of the next stage and
    waits on that stage's delay, with the stage's merge and the later
    stages still to run. *)
Lemma stage_wait done st rest q img clk w :
  Forall (λ st, raises st = false) done →
  dispatchAll (timers (length done) w)
    (start (runStages (done ++ st :: rest) q img clk) w)
  = mkWorld
      (run (prologue q img clk ++ flat_map (stageEffects (agentMsgId clk)) done
              ++ [SetCurrentProcessLog (label st)]) (ui w))
      (reading w)
      (pending w ++
         [mergeEffects (agentMsgId clk) st
            ++ flat_map (stageEffects (agentMsgId clk)) rest ++ epilogue clk]).
Proof.
  intros H. rewrite runStages_split.
  rewrite <- (before_wait_waits done (label st) q img clk H).
  apply start_drive_to_wait, before_wait_no_throw, H.
Qed.

(** ** The state while a flow is under way *)

Lemma isProcessing_run k s :
  Forall (λ e, isSetIsProcessing e = false) k → isProcessing (run k s) = isProcessing s.
Proof.
  intros H. revert s. induction H as [|e k He _ IH]; intros s; [reflexivity|].
  rewrite run_cons, IH. destruct e; try reflexivity. discriminate.
Qed.

Lemma stages_keep_isProcessing i stages :
  Forall (λ e, isSetIsProcessing e = false) (flat_map (stageEffects i) stages).
Proof.
  induction stages as [|st stages IH]; cbn [flat_map]; [constructor|].
  apply Forall_app_2; [|exact IH].
  unfold stageEffects, mergeEffects. destruct (outcome st); repeat constructor.
Qed.

Lemma before_wait_state done l q img clk s :
  let s' := run (prologue q img clk ++ flat_map (stageEffects (agentMsgId clk)) done
                   ++ [SetCurrentProcessLog l]) s in
  isProcessing s' = true
  ∧ currentProcessLog s' = l
  ∧ (∃ u, userTurn s s' = Some u ∧ frame u = frame (userMessage q clk))
  ∧ ∃ a, agentTurn s s' = Some a
         ∧ frame a = frame (agentMessage q img clk)
         ∧ isStreaming a = Some true
         ∧ agentResponse a = Some (accumulated done (initialResponse q img)).
Proof.
  set (body := (flat_map (stageEffects (agentMsgId clk)) done
                  ++ [SetCurrentProcessLog l])%list).
  assert (Hbody : Forall (λ e, isAppend e = false) body).
  { apply Forall_app_2; [apply stages_no_append | repeat constructor]. }
  cbn zeta. repeat split.
  - rewrite run_app.
    rewrite isProcessing_run
      by (apply Forall_app_2; [apply stages_keep_isProcessing | repeat constructor]).
    reflexivity.
  - unfold body. rewrite !app_assoc, run_app. reflexivity.
  - eexists. split; [apply userTurn_flow, Hbody | apply frame_onMessage].
  - eexists. split; [apply agentTurn_flow, Hbody|]. split; [apply frame_onMessage|].
    split.
    + rewrite isStreaming_onMessage; [reflexivity|].
      apply Forall_app_2; [apply stages_no_stop | repeat constructor].
    + unfold body. rewrite onMessage_app. cbn [onMessage fold_left effectOnMessage].
      apply agentResponse_stages.
Qed.

(** ** C2 *)

Lemma scriptedStages_do_not_raise : Forall (λ st, raises st = false) scriptedStages.
Proof. repeat constructor. Qed.

Lemma simulateAgentFlow_runStages q img clk :
  simulateAgentFlow q img clk = runStages scriptedStages q img clk.
Proof. reflexivity. Qed.

Lemma simulateAgentFlow_no_throw q img clk :
  Forall (λ e, isThrow e = false) (simulateAgentFlow q img clk).
Proof. repeat constructor. Qed.

Lemma sets_scriptedStages :
  map sets scriptedStages
  = [∅; {["product_json"]}; {["plan"]}; {["search_needed"; "search_queries"]};
     {["final_verdict"; "reasoning"; "next_suggestion"]}].
Proof.
  cbn [map scriptedStages]. unfold sets. cbn [outcome scanStage extractStage
    reasonStage searchStage verdictStage].
  unfold extractUpdate, reasonUpdate, searchUpdate, verdictUpdate.
  rewrite !dom_insert_L, !dom_singleton_L. reflexivity.
Qed.

Lemma flow_completes q img clk w :
  dispatchAll (timers 5 w) (start (simulateAgentFlow q img clk) w)
  = mkWorld (run (simulateAgentFlow q img clk) (ui w)) (reading w) (pending w).
Proof.
  change 5%nat with (waits (simulateAgentFlow q img clk)).
  rewrite start_drive, finish_no_throw by apply simulateAgentFlow_no_throw.
  reflexivity.
Qed.

Lemma flow_end_state q img clk s :
  let s' := run (simulateAgentFlow q img clk) s in
  isProcessing s' = false
  ∧ currentProcessLog s' = ""
  ∧ (∃ u, userTurn s s' = Some u ∧ frame u = frame (userMessage q clk))
  ∧ ∃ a, agentTurn s s' = Some a
         ∧ frame a = frame (agentMessage q img clk)
         ∧ isStreaming a = Some false
         ∧ agentResponse a = Some (accumulated scriptedStages (initialResponse q img)).
Proof.
  assert (Hbody : Forall (λ e, isAppend e = false) (stagePart clk ++ epilogue clk)).
  { apply Forall_app_2; [apply stages_no_append | apply epilogue_no_append]. }
  change (simulateAgentFlow q img clk)
    with (prologue q img clk ++ stagePart clk ++ epilogue clk).
  cbn zeta. split; [|split; [|split]].
  - rewrite !app_assoc, run_app. reflexivity.
  - rewrite !app_assoc, run_app. reflexivity.
  - eexists. split; [apply userTurn_flow, Hbody | apply frame_onMessage].
  - eexists. split; [apply agentTurn_flow, Hbody|]. split; [apply frame_onMessage|].
    rewrite onMessage_app. unfold epilogue. rewrite !onMessage_cons.
    pose proof (agentResponse_stages scriptedStages q img clk) as Hr.
    pose proof (id_onMessage (stagePart clk) (agentMessage q img clk)) as Hid.
    fold (stagePart clk) in Hr. cbn [id agentMessage] in Hid.
    set (x := onMessage (stagePart clk) (agentMessage q img clk)) in *.
    rewrite <- Hid, stop_self. cbn [onMessage fold_left effectOnMessage].
    split; [reflexivity | exact Hr].
Qed.

Lemma dom_accumulated stages : ∀ r : AgentResponse,
  dom (accumulated stages r) = dom r ∪ ⋃ (sets <$> stages).
Proof.
  induction stages as [|st stages IH]; intros r.
  - cbn. symmetry. apply (right_id_L ∅ (∪)).
  - cbn [accumulated fold_left fmap list_fmap union_list foldr].
    change (fold_left _ stages ?x) with (accumulated stages x).
    rewrite IH. unfold sets at 2. destruct (outcome st) as [|u|c].
    + rewrite (left_id_L ∅ (∪)). reflexivity.
    + unfold spread. rewrite dom_union_L, (comm_L (∪) (dom u) (dom r)).
      symmetry. apply (assoc_L (∪)).
    + rewrite (left_id_L ∅ (∪)). reflexivity.
Qed.

Lemma accumulated_merged stages : ∀ (d : gset string) (r : AgentResponse),
  disjointStages d stages → dom r ⊆ d →
  r ⊆ accumulated stages r ∧ Forall (λ st, merged st (accumulated stages r)) stages.
Proof.
  induction stages as [|st stages IH]; intros d r Hd Hr.
  - split; [reflexivity | constructor].
  - destruct Hd as [Hst Hd]. cbn [accumulated fold_left].
    change (fold_left _ stages ?x) with (accumulated stages x).
    unfold merged at 1. unfold sets in Hst, Hd.
    destruct (outcome st) as [|u|c] eqn:E.
    + destruct (IH _ r Hd) as [H1 H2]; [set_solver|].
      split; [exact H1|]. constructor; [unfold merged; rewrite E; exact I | exact H2].
    + unfold spread.
      destruct (IH _ (u ∪ r) Hd) as [H1 H2]; [rewrite dom_union_L; set_solver|].
      split.
      * transitivity (u ∪ r); [|exact H1].
        apply map_union_subseteq_r, map_disjoint_dom. set_solver.
      * constructor; [|exact H2]. unfold merged. rewrite E.
        transitivity (u ∪ r); [apply map_union_subseteq_l | exact H1].
    + destruct (IH _ r Hd) as [H1 H2]; [set_solver|].
      split; [exact H1|]. constructor; [unfold merged; rewrite E; exact I | exact H2].
Qed.

Lemma disjointStages_prefix s1 : ∀ s2 d,
  disjointStages d (s1 ++ s2) → disjointStages d s1.
Proof.
  induction s1 as [|st s1 IH]; intros s2 d H; [exact I|].
  destruct H as [H1 H2]. split; [exact H1 | eapply IH; exact H2].
Qed.

Lemma scriptedStages_disjoint q img :
  disjointStages (dom (initialResponse q img)) scriptedStages.
Proof.
  pose proof sets_scriptedStages as H. cbn [map scriptedStages] in H.
  unfold initialResponse. rewrite dom_insert_L, dom_singleton_L.
  cbn [disjointStages scriptedStages]. unfold sets.
  cbn [outcome scanStage extractStage reasonStage searchStage verdictStage].
  unfold extractUpdate, reasonUpdate, searchUpdate, verdictUpdate.
  rewrite !dom_insert_L, !dom_singleton_L.
  repeat (split; [apply (bool_decide_unpack _); vm_compute; exact I|]).
  exact I.
Qed.

(** What the result of the agent turn holds when the stages of a prefix
    of the script have been merged. *)
Lemma accumulated_prefix j q img :
  let r := accumulated (take j scriptedStages) (initialResponse q img) in
  dom r = {["user_query"; "image_data"]} ∪ ⋃ (sets <$> take j scriptedStages)
  ∧ r !! "user_query" = Some (VString q)
  ∧ r !! "image_data" = Some (ofNullable img)
  ∧ Forall (λ st, merged st r) (take j scriptedStages).
Proof.
  cbn zeta.
  assert (Hd : disjointStages (dom (initialResponse q img)) (take j scriptedStages)).
  { apply (disjointStages_prefix _ (drop j scriptedStages)).
    rewrite take_drop. apply scriptedStages_disjoint. }
  destruct (accumulated_merged _ _ (initialResponse q img) Hd) as [H1 H2];
    [reflexivity|].
  split; [|split; [|split]].
  - rewrite dom_accumulated. unfold initialResponse.
    rewrite dom_insert_L, dom_singleton_L. reflexivity.
  - rewrite map_subseteq_spec in H1. apply H1. reflexivity.
  - rewrite map_subseteq_spec in H1. apply H1. reflexivity.
  - exact H2.
Qed.

(** C2. The flow is the scripted list of five stages, scan, extract,
    reason, search, verdict, with the labels and delays of the source,
    run in that order between the prologue and the epilogue; scan sets no
    field, extract sets [product_json], reason sets [plan], search sets
    [search_needed] and [search_queries], verdict sets [final_verdict],
    [reasoning] and [next_suggestion]. For the stage [st] at position [j]:
    after [j] timers its label is published and the flow waits on its
    delay; the result of the agent turn then has [user_query] and
    [image_data] as seeded and every field set by the [j] stages before
    [st], each with the value its stage gave it, and no other field; the
    merge of [st] and the later stages are still to run. After the fifth
    timer the whole flow has run and the result has the fields of all
    five stages. *)
Theorem C2_five_stages_in_order (w : World) (q : string) (img : option string)
    (clk : Clock) (j : nat) (st : Stage) :
  scriptedStages !! j = Some st →
  simulateAgentFlow q img clk = runStages scriptedStages q img clk
  ∧ map stageName scriptedStages = ["scan"; "extract"; "reason"; "search"; "verdict"]
  ∧ map label scriptedStages
    = ["SCANNING IMAGE PIXELS..."; "EXTRACTING ENTITIES VIA GEMINI 2.0...";
       "CROSS-REFERENCING HEALTH PROFILE..."; "VERIFYING ANAPHYLAXIS PROTOCOLS...";
       "GENERATING SAFETY VERDICT..."]
  ∧ map delay scriptedStages = [1000; 800; 1000; 1200; 800]
  ∧ map sets scriptedStages
    = [∅; {["product_json"]}; {["plan"]}; {["search_needed"; "search_queries"]};
       {["final_verdict"; "reasoning"; "next_suggestion"]}]
  ∧ (let w' := dispatchAll (timers j w) (start (simulateAgentFlow q img clk) w) in
     currentProcessLog (ui w') = label st
     ∧ (∃ a, agentTurn (ui w) (ui w') = Some a
             ∧ agentResponse a
               = Some (accumulated (take j scriptedStages) (initialResponse q img))
             ∧ dom (response a)
               = {["user_query"; "image_data"]} ∪ ⋃ (sets <$> take j scriptedStages)
             ∧ field "user_query" a = Some (VString q)
             ∧ field "image_data" a = Some (ofNullable img)
             ∧ Forall (λ st', merged st' (response a)) (take j scriptedStages))
     ∧ pending w'
       = pending w ++
         [mergeEffects (agentMsgId clk) st
            ++ flat_map (stageEffects (agentMsgId clk)) (drop (S j) scriptedStages)
            ++ epilogue clk])
  ∧ (let w' := dispatchAll (timers 5 w) (start (simulateAgentFlow q img clk) w) in
     ui w' = run (simulateAgentFlow q img clk) (ui w)
     ∧ pending w' = pending w
     ∧ ∃ a, agentTurn (ui w) (ui w') = Some a
            ∧ agentResponse a
              = Some (accumulated scriptedStages (initialResponse q img))
            ∧ dom (response a)
              = {["user_query"; "image_data"; "product_json"; "plan";
                  "search_needed"; "search_queries"; "final_verdict"; "reasoning";
                  "next_suggestion"]}
            ∧ field "user_query" a = Some (VString q)
            ∧ field "image_data" a = Some (ofNullable img)
            ∧ extractUpdate ⊆ response a
            ∧ reasonUpdate ⊆ response a
            ∧ searchUpdate ⊆ response a
            ∧ verdictUpdate ⊆ response a).
Proof.
  intros Hj.
  split; [reflexivity|]. split; [reflexivity|]. split; [reflexivity|].
  split; [reflexivity|]. split; [apply sets_scriptedStages|].
  split.
  - cbn zeta.
    pose proof (lookup_lt_Some _ _ _ Hj) as Hlt.
    pose proof (take_drop_middle _ _ _ Hj) as Hsplit.
    pose proof (stage_wait (take j scriptedStages) st (drop (S j) scriptedStages)
                  q img clk w (Forall_take _ j _ scriptedStages_do_not_raise)) as Hw.
    rewrite Hsplit, length_take, Nat.min_l in Hw by lia.
    rewrite <- simulateAgentFlow_runStages in Hw. rewrite !Hw.
    cbn [ui pending mkWorld].
    destruct (before_wait_state (take j scriptedStages) (label st) q img clk (ui w))
      as (_ & Hlog & _ & a & Ha & _ & _ & Hr).
    split; [exact Hlog|]. split; [|reflexivity]. exists a. split; [exact Ha|].
    split; [exact Hr|].
    destruct (accumulated_prefix j q img) as (H1 & H2 & H3 & H4). cbn zeta in *.
    assert (HR : response a
                 = accumulated (take j scriptedStages) (initialResponse q img))
      by (unfold response; rewrite Hr; reflexivity).
    rewrite !field_response, HR. repeat split; assumption.
  - cbn zeta. rewrite flow_completes. cbn [ui pending mkWorld].
    split; [reflexivity|]. split; [reflexivity|].
    destruct (flow_end_state q img clk (ui w)) as (_ & _ & _ & a & Ha & _ & _ & Hr).
    exists a. split; [exact Ha|]. split; [exact Hr|].
    destruct (accumulated_prefix 5 q img) as (H1 & H2 & H3 & H4). cbn zeta in *.
    change (take 5 scriptedStages) with scriptedStages in *.
    assert (HR : response a = accumulated scriptedStages (initialResponse q img))
      by (unfold response; rewrite Hr; reflexivity).
    rewrite !field_response, HR.
    split.
    { rewrite H1. apply (bool_decide_unpack _). vm_compute. exact I. }
    split; [exact H2|]. split; [exact H3|].
    apply Forall_cons in H4 as [_ H4].
    apply Forall_cons in H4 as [He H4]. apply Forall_cons in H4 as [Hre H4].
    apply Forall_cons in H4 as [Hse H4]. apply Forall_cons in H4 as [Hve _].
    repeat split; assumption.
Qed.

Lemma C2_five_stages_witness :
  scriptedStages !! 2%nat = Some reasonStage
  ∧ currentProcessLog
      (ui (dispatchAll (timers 2 initialWorld)
             (start (simulateAgentFlow "Is X safe?" None clockA) initialWorld)))
    = "CROSS-REFERENCING HEALTH PROFILE...".
Proof.
  split; [reflexivity|].
  apply (C2_five_stages_in_order initialWorld "Is X safe?" None clockA 2 reasonStage).
  reflexivity.
Defined.

(** ** C3 *)

Lemma orElse_truthy a b : a ≠ "" → orElse a b = a.
Proof. intros H. destruct a; [contradiction | reflexivity]. Qed.

Lemma final_verdict_accumulated r :
  accumulated scriptedStages r !! "final_verdict" = Some (VVerdict AVOID).
Proof.
  cbn [accumulated scriptedStages fold_left outcome scanStage extractStage
       reasonStage searchStage verdictStage].
  rewrite lookup_spread. reflexivity.
Qed.

(** C3. Submitting a non-empty query without an image appends a user
    turn whose text is the query and, right after it, an agent turn with
    [isStreaming] true; when the five timers of the flow have fired the
    two turns are still the last two of the log, the user turn has the
    query as its text, and the agent turn has [isStreaming] false and a
    verdict, one of SAFE, CAUTION, AVOID. *)
Theorem C3_text_submission_turns (w : World) (q : string) (clk : Clock) :
  q ≠ "" →
  let w1 := start (simulateAgentFlow q None clk) w in
  let w6 := dispatchAll (timers 5 w) w1 in
  (∃ u a, messages (ui w1) = messages (ui w) ++ [u; a]
          ∧ type u = user ∧ content u = q
          ∧ type a = agent ∧ isStreaming a = Some true)
  ∧ length (messages (ui w6)) = (length (messages (ui w)) + 2)%nat
  ∧ (∃ u a, userTurn (ui w) (ui w6) = Some u
            ∧ agentTurn (ui w) (ui w6) = Some a
            ∧ type u = user ∧ content u = q
            ∧ type a = agent ∧ isStreaming a = Some false
            ∧ ∃ v, field "final_verdict" a = Some (VVerdict v)
                   ∧ (v = SAFE ∨ v = CAUTION ∨ v = AVOID)).
Proof.
  intros Hq. cbn zeta. split; [|split].
  - exists (userMessage q clk), (agentMessage q None clk).
    rewrite ui_start. cbn [simulateAgentFlow ranBy]. unfold run.
    cbn [fold_left applyEffect setIsProcessing setMessages setCurrentProcessLog messages].
    rewrite <- app_assoc. cbn [app userMessage agentMessage type content isStreaming].
    rewrite orElse_truthy by exact Hq. repeat split; reflexivity.
  - rewrite flow_completes. cbn [ui mkWorld].
    rewrite <- (length_map frame), frame_run, length_app, !length_map.
    reflexivity.
  - rewrite flow_completes. cbn [ui mkWorld].
    destruct (flow_end_state q None clk (ui w))
      as (_ & _ & (u & Hu & Hfu) & a & Ha & Hfa & Hs & Hr).
    exists u, a. unfold frame in Hfu, Hfa. cbn [userMessage agentMessage id type
      content timestamp] in Hfu, Hfa.
    rewrite orElse_truthy in Hfu by exact Hq.
    split; [exact Hu|]. split; [exact Ha|].
    split; [congruence|]. split; [congruence|]. split; [congruence|].
    split; [exact Hs|]. exists AVOID. split; [|auto].
    unfold field. rewrite Hr. apply final_verdict_accumulated.
Qed.

Lemma C3_text_submission_witness :
  "Is X safe?" ≠ ""
  ∧ ∃ u a,
      userTurn (ui initialWorld)
        (ui (dispatchAll (timers 5 initialWorld)
               (start (simulateAgentFlow "Is X safe?" None clockA) initialWorld)))
      = Some u
      ∧ agentTurn (ui initialWorld)
          (ui (dispatchAll (timers 5 initialWorld)
                 (start (simulateAgentFlow "Is X safe?" None clockA) initialWorld)))
        = Some a
      ∧ type u = user ∧ content u = "Is X safe?"
      ∧ type a = agent ∧ isStreaming a = Some false
      ∧ ∃ v, field "final_verdict" a = Some (VVerdict v)
             ∧ (v = SAFE ∨ v = CAUTION ∨ v = AVOID).
Proof.
  split; [discriminate|].
  apply (C3_text_submission_turns initialWorld "Is X safe?" clockA). discriminate.
Defined.

(** ** C7 *)

Lemma stop_after_stages n q img clk :
  isStreaming (onMessage (stagePart clk ++ take (S n) (epilogue clk))
                 (agentMessage q img clk)) = Some false.
Proof.
  rewrite onMessage_app. cbn [epilogue take]. rewrite onMessage_cons.
  pose proof (id_onMessage (stagePart clk) (agentMessage q img clk)) as Hid.
  cbn [id agentMessage] in Hid.
  set (x := onMessage (stagePart clk) (agentMessage q img clk)) in *.
  rewrite <- Hid, stop_self.
  rewrite isStreaming_onMessage; [reflexivity|].
  apply Forall_take. repeat constructor.
Qed.

Lemma isStreaming_never_set e m :
  isStreaming (effectOnMessage e m) = isStreaming m
  ∨ isStreaming (effectOnMessage e m) = Some false.
Proof.
  destruct e; try (left; reflexivity); simpl; destruct (String.eqb _ _); auto.
Qed.

Lemma isStreaming_monotone k m :
  isStreaming (onMessage k m) = isStreaming m
  ∨ isStreaming (onMessage k m) = Some false.
Proof.
  revert m. induction k as [|e k IH]; intros m; [left; reflexivity|].
  rewrite onMessage_cons.
  destruct (IH (effectOnMessage e m)) as [H|H]; [|right; exact H].
  rewrite H. apply isStreaming_never_set.
Qed.

Lemma guarded_while_processing e w :
  isProcessing (ui w) = true → guarded e = true →
  messages (ui (dispatch e w)) = messages (ui w)
  ∧ isProcessing (ui (dispatch e w)) = true
  ∧ pending (dispatch e w) = pending w.
Proof.
  intros Hp He. destruct e as [v|c|f|i r c|sg c|c|i]; try discriminate; cbn [dispatch].
  - repeat split; assumption || reflexivity.
  - unfold handleSubmit. rewrite Hp, andb_false_r. repeat split; assumption.
  - destruct f; repeat split; assumption || reflexivity.
  - unfold clickSuggestion. rewrite Hp. repeat split; assumption.
Qed.

Lemma guarded_events_while_processing es : ∀ w,
  isProcessing (ui w) = true →
  messages (ui (dispatchAll (filter (λ e, guarded e = true) es) w)) = messages (ui w)
  ∧ isProcessing (ui (dispatchAll (filter (λ e, guarded e = true) es) w)) = true
  ∧ pending (dispatchAll (filter (λ e, guarded e = true) es) w) = pending w.
Proof.
  induction es as [|e es IH]; intros w Hp; [repeat split; assumption|].
  rewrite filter_cons. destruct (decide (guarded e = true)) as [He|He]; [|apply IH, Hp].
  rewrite dispatchAll_cons.
  destruct (guarded_while_processing e w Hp He) as (Hm & Hp' & Hq).
  destruct (IH (dispatch e w) Hp') as (Hm2 & Hp2 & Hq2).
  repeat split; congruence.
Qed.

(** C7, at the failing input. The read of a selected file ends within
    the millisecond in which a question was submitted, so the two flows
    read the same clock and their agent turns get the same id. The
    timers of the two flows fire in turn. After four timers each both
    agent turns have [isStreaming] true. The first flow's fifth timer
    then runs its verdict merge and its [StopStreaming], which address
    every message with that id: the second flow's agent turn has
    [isStreaming] false while the second flow is still waiting, its own
    verdict merge and [StopStreaming] to come. The claim says that the
    flag of a run's turn flips when that run's verdict stage completes and
    that no other operation changes it. *)
Theorem C7_second_flow_turn_flips_early :
  map (λ m, (id m, type m, isStreaming m)) (messages (ui overlappedWorld))
  = [("1700000000000", user, None); ("1700000000001", agent, Some true);
     ("1700000000000", user, None); ("1700000000001", agent, Some true)]
  ∧ length (pending overlappedWorld) = 2%nat
  ∧ map (λ m, (id m, type m, isStreaming m))
      (messages (ui (timerFired 0 overlappedWorld)))
    = [("1700000000000", user, None); ("1700000000001", agent, Some false);
       ("1700000000000", user, None); ("1700000000001", agent, Some false)]
  ∧ pending (timerFired 0 overlappedWorld)
    = [[UpdateAgentMsg "1700000000001" verdictUpdate;
        StopStreaming "1700000000001"; SetIsProcessing false;
        SetCurrentProcessLog ""]].
Proof. vm_compute. repeat split; reflexivity. Qed.

(** ** C8 *)

Lemma flow_keeps_image_data clk :
  Forall (λ e, writes "image_data" e = false) (stagePart clk ++ epilogue clk).
Proof. repeat constructor. Qed.

(** C8. For a submission with an image payload the agent turn is created
    with [image_data] equal to the payload, and after every further
    effect of the run [image_data] of the agent turn is still the
    payload; no stage sets [image_data], and no effect of the run changes
    the [image_data] of any message. *)
Theorem C8_image_data_is_fixed (s : State) (q payload : string) (clk : Clock) :
  field "image_data" (agentMessage q (Some payload) clk) = Some (VString payload)
  ∧ (∀ n, ∃ a,
       agentTurn s (run (prologue q (Some payload) clk
                           ++ take n (stagePart clk ++ epilogue clk)) s) = Some a
       ∧ field "image_data" a = Some (VString payload))
  ∧ Forall (λ st, "image_data" ∉ sets st) scriptedStages
  ∧ (∀ n m, field "image_data" (onMessage (take n (stagePart clk ++ epilogue clk)) m)
            = field "image_data" m).
Proof.
  split; [reflexivity|]. split; [|split].
  - intros n. eexists. split.
    + apply agentTurn_flow, Forall_take, Forall_app_2;
        [apply stages_no_append | apply epilogue_no_append].
    + rewrite field_onMessage_untouched; [reflexivity|].
      apply Forall_take, flow_keeps_image_data.
  - unfold scriptedStages.
    repeat apply Forall_cons_2; try apply Forall_nil_2; unfold sets;
      cbn [outcome scanStage extractStage reasonStage searchStage verdictStage];
      try apply not_elem_of_empty; apply not_elem_of_dom; reflexivity.
  - intros n m. apply field_onMessage_untouched, Forall_take, flow_keeps_image_data.
Qed.

(** ** C6 *)

Lemma response_effect_dom d e m :
  dom (response m) ⊆ d →
  dom (response (effectOnMessage e m))
  ⊆ match e with UpdateAgentMsg _ u => dom u ∪ d | _ => d end.
Proof.
  intros H. destruct e as [| | | |i u|i| |]; try exact H.
  - simpl. destruct (String.eqb _ _); [|set_solver].
    change (dom (u ∪ response m) ⊆ dom u ∪ d).
    rewrite dom_union_L. apply union_mono_l, H.
  - simpl. destruct (String.eqb _ _); exact H.
Qed.

Lemma response_effect_subseteq d e k m :
  additive d (e :: k) → dom (response m) ⊆ d →
  response m ⊆ response (effectOnMessage e m).
Proof.
  intros Ha H. destruct e as [| | | |i u|i| |]; try reflexivity.
  - simpl. destruct (String.eqb _ _); [|reflexivity].
    change (response m ⊆ u ∪ response m).
    apply map_union_subseteq_r, map_disjoint_dom.
    destruct Ha as [Ha _]. set_solver.
  - simpl. destruct (String.eqb _ _); reflexivity.
Qed.

Lemma additive_tail d e k :
  additive d (e :: k) →
  additive (match e with UpdateAgentMsg _ u => dom u ∪ d | _ => d end) k.
Proof. destruct e; simpl; tauto. Qed.

Lemma additive_subseteq k : ∀ d m,
  additive d k → dom (response m) ⊆ d → response m ⊆ response (onMessage k m).
Proof.
  induction k as [|e k IH]; intros d m Ha H; [reflexivity|].
  rewrite onMessage_cons.
  transitivity (response (effectOnMessage e m)).
  - eapply response_effect_subseteq; eassumption.
  - eapply IH; [apply additive_tail, Ha | apply response_effect_dom, H].
Qed.

Lemma additive_app k1 : ∀ k2 d m,
  additive d (k1 ++ k2) → dom (response m) ⊆ d →
  response (onMessage k1 m) ⊆ response (onMessage (k1 ++ k2) m).
Proof.
  induction k1 as [|e k1 IH]; intros k2 d m Ha H.
  - eapply additive_subseteq; eassumption.
  - cbn [app]. rewrite !onMessage_cons.
    eapply IH; [apply additive_tail, Ha | apply response_effect_dom, H].
Qed.

Lemma additive_prefix k1 : ∀ k2 d, additive d (k1 ++ k2) → additive d k1.
Proof.
  induction k1 as [|e k1 IH]; intros k2 d Ha; [exact I|].
  destruct e; simpl in *; try (eapply IH; exact Ha).
  destruct Ha as [H1 H2]. split; [exact H1 | eapply IH; exact H2].
Qed.

Lemma flow_additive q img clk :
  additive (dom (initialResponse q img)) (stagePart clk ++ epilogue clk).
Proof.
  unfold initialResponse. rewrite dom_insert_L, dom_singleton_L.
  cbn. unfold extractUpdate, reasonUpdate, searchUpdate, verdictUpdate.
  rewrite !dom_insert_L, !dom_singleton_L.
  repeat (split; [apply (bool_decide_unpack _); vm_compute; exact I|]).
  exact I.
Qed.

(** C6. Within a run, the result of the agent turn only grows: whatever
    fields it holds after [n] effects of the run it holds, with the same
    values, after any [j] more (no field is cleared and none is
    overwritten by a later stage); and merging an empty partial changes
    nothing. *)
Theorem C6_accumulation_is_additive (s : State) (q : string) (img : option string)
    (clk : Clock) :
  (∀ n j, ∃ a a',
     agentTurn s (run (prologue q img clk
                         ++ take n (stagePart clk ++ epilogue clk)) s) = Some a
     ∧ agentTurn s (run (prologue q img clk
                           ++ take (n + j) (stagePart clk ++ epilogue clk)) s) = Some a'
     ∧ response a ⊆ response a')
  ∧ (∀ r : AgentResponse, spread r ∅ = r)
  ∧ (∀ i m r, effectOnMessage (UpdateAgentMsg i ∅) (withAgentResponse m r)
              = withAgentResponse m r).
Proof.
  split; [|split].
  - intros n j. do 2 eexists. split; [|split].
    + apply agentTurn_flow, Forall_take, Forall_app_2;
        [apply stages_no_append | apply epilogue_no_append].
    + apply agentTurn_flow, Forall_take, Forall_app_2;
        [apply stages_no_append | apply epilogue_no_append].
    + rewrite <- (take_take_drop (stagePart clk ++ epilogue clk) n j).
      eapply additive_app; [|reflexivity].
      rewrite take_take_drop.
      eapply additive_prefix. rewrite take_drop. apply flow_additive.
  - apply spread_empty_r.
  - intros i m r. simpl. destruct (String.eqb _ _); [|reflexivity].
    rewrite spread_empty_r. reflexivity.
Qed.

(** ** C10 *)

Lemma accumulated_union stages : ∀ r,
  accumulated stages r = accumulated stages ∅ ∪ r.
Proof.
  induction stages as [|st stages IH]; intros r.
  - cbn. symmetry. apply (left_id_L ∅ (∪)).
  - cbn [accumulated fold_left].
    change (fold_left _ stages ?x) with (accumulated stages x).
    destruct (outcome st) as [|u|c]; try apply IH.
    rewrite IH, (IH (spread ∅ u)). unfold spread.
    rewrite (right_id_L ∅ (∪)). apply (assoc_L (∪)).
Qed.

Lemma scriptedResult_fields :
  scriptedResult !! "user_query" = None
  ∧ scriptedResult !! "image_data" = None
  ∧ scriptedResult !! "product_json" = extractUpdate !! "product_json"
  ∧ scriptedResult !! "plan" = reasonUpdate !! "plan"
  ∧ scriptedResult !! "search_needed" = Some (VBool true)
  ∧ scriptedResult !! "search_queries" = searchUpdate !! "search_queries"
  ∧ scriptedResult !! "final_verdict" = Some (VVerdict AVOID)
  ∧ scriptedResult !! "reasoning" = verdictUpdate !! "reasoning"
  ∧ scriptedResult !! "next_suggestion" = verdictUpdate !! "next_suggestion".
Proof. vm_compute. repeat split; reflexivity. Qed.

Lemma delete_inputs q img :
  delete "user_query" (delete "image_data" (scriptedResult ∪ initialResponse q img))
  = scriptedResult.
Proof.
  destruct scriptedResult_fields as (Hq & Hi & _).
  rewrite !delete_union.
  rewrite (delete_id scriptedResult "image_data") by exact Hi.
  rewrite (delete_id scriptedResult "user_query") by exact Hq.
  unfold initialResponse.
  rewrite delete_insert_ne by discriminate. rewrite delete_singleton_eq.
  rewrite delete_insert_eq, delete_empty. apply (right_id_L ∅ (∪)).
Qed.

(** C10. The result of a run does not depend on its input beyond the two
    echoed fields: for any two runs, whatever their queries, images,
    clocks and starting states, the results of the two agent turns are
    equal once [user_query] and [image_data] are removed, and equal to
    the scripted result, whose verdict is AVOID; [user_query] and
    [image_data] are the query and the image of the run. The stage
    updates are the same constants in every run. *)
Theorem C10_result_independent_of_input (s1 s2 : State) (q1 q2 : string)
    (img1 img2 : option string) (clk1 clk2 : Clock) :
  ∃ a1 a2,
    agentTurn s1 (run (simulateAgentFlow q1 img1 clk1) s1) = Some a1
    ∧ agentTurn s2 (run (simulateAgentFlow q2 img2 clk2) s2) = Some a2
    ∧ delete "user_query" (delete "image_data" (response a1)) = scriptedResult
    ∧ delete "user_query" (delete "image_data" (response a2)) = scriptedResult
    ∧ field "user_query" a1 = Some (VString q1)
    ∧ field "image_data" a1 = Some (ofNullable img1)
    ∧ field "user_query" a2 = Some (VString q2)
    ∧ field "image_data" a2 = Some (ofNullable img2)
    ∧ scriptedResult !! "final_verdict" = Some (VVerdict AVOID)
    ∧ dom scriptedResult
      = {["product_json"; "plan"; "search_needed"; "search_queries";
          "final_verdict"; "reasoning"; "next_suggestion"]}
    ∧ map outcome scriptedStages
      = [Silent; Yields extractUpdate; Yields reasonUpdate; Yields searchUpdate;
         Yields verdictUpdate].
Proof.
  destruct (flow_end_state q1 img1 clk1 s1) as (_ & _ & _ & a1 & Ha1 & _ & _ & Hr1).
  destruct (flow_end_state q2 img2 clk2 s2) as (_ & _ & _ & a2 & Ha2 & _ & _ & Hr2).
  exists a1, a2. cbn zeta in *.
  rewrite accumulated_union in Hr1, Hr2. fold scriptedResult in Hr1, Hr2.
  assert (R1 : response a1 = scriptedResult ∪ initialResponse q1 img1)
    by (unfold response; rewrite Hr1; reflexivity).
  assert (R2 : response a2 = scriptedResult ∪ initialResponse q2 img2)
    by (unfold response; rewrite Hr2; reflexivity).
  destruct scriptedResult_fields as (Hq & Hi & _ & _ & _ & _ & Hv & _).
  split; [exact Ha1|]. split; [exact Ha2|].
  split; [rewrite R1; apply delete_inputs|].
  split; [rewrite R2; apply delete_inputs|].
  rewrite !field_response, R1, R2, !lookup_union, Hq, Hi.
  repeat (split; [reflexivity|]). reflexivity.
Qed.

(** * Further properties of the component *)

(** ** Blank input *)

Lemma truthy_encodePoint p s : truthy (String.append (encodePoint p) s) = true.
Proof.
  unfold encodePoint.
  destruct (p <? 128)%N; [reflexivity|].
  destruct (p <? 2048)%N; [reflexivity|].
  destruct (p <? 65536)%N; reflexivity.
Qed.

Lemma truthy_ofCodePoints l :
  truthy (ofCodePoints l) = match l with [] => false | _ => true end.
Proof. destruct l as [|p l]; [reflexivity|]. apply truthy_encodePoint. Qed.

Lemma trimStartPoints_nil l :
  match trimStartPoints l with [] => false | _ => true end
  = negb (forallb isWhiteSpace l).
Proof.
  induction l as [|p l IH]; [reflexivity|].
  cbn [trimStartPoints forallb]. destruct (isWhiteSpace p); [exact IH | reflexivity].
Qed.

Lemma forallb_trimStartPoints l :
  forallb isWhiteSpace (trimStartPoints l) = forallb isWhiteSpace l.
Proof.
  induction l as [|p l IH]; [reflexivity|].
  cbn [trimStartPoints forallb]. destruct (isWhiteSpace p) eqn:E; [exact IH|].
  cbn [forallb]. rewrite E. reflexivity.
Qed.

Lemma forallb_rev_white l :
  forallb isWhiteSpace (rev l) = forallb isWhiteSpace l.
Proof.
  induction l as [|p l IH]; [reflexivity|].
  cbn [rev]. rewrite forallb_app, IH. cbn [forallb].
  rewrite andb_true_r. apply andb_comm.
Qed.

Lemma rev_nil_test (l : list N) :
  match rev l with [] => false | _ => true end
  = match l with [] => false | _ => true end.
Proof.
  destruct l as [|p l]; [reflexivity|]. cbn [rev].
  destruct (rev l); reflexivity.
Qed.

(** What [inputValue.trim()] tests: some character is not white space. *)
Lemma truthy_trim s : truthy (trim s) = negb (blank s).
Proof.
  unfold trim, trimEndPoints, blank.
  rewrite truthy_ofCodePoints, rev_nil_test, trimStartPoints_nil.
  rewrite forallb_rev_white, forallb_trimStartPoints. reflexivity.
Qed.

Lemma blank_false_nonempty s : blank s = false → s ≠ "".
Proof. intros H ->. discriminate. Qed.

Lemma start_simulateAgentFlow q img clk w :
  start (simulateAgentFlow q img clk) w
  = mkWorld
      (run (prologue q img clk ++ [SetCurrentProcessLog "SCANNING IMAGE PIXELS..."])
         (ui w))
      (reading w)
      (pending w ++ [afterWait 0 (simulateAgentFlow q img clk)]).
Proof. reflexivity. Qed.

Lemma run_start_segment q img clk s :
  let s' := run (prologue q img clk ++ [SetCurrentProcessLog "SCANNING IMAGE PIXELS..."]) s in
  messages s' = messages s ++ [userMessage q clk; agentMessage q img clk]
  ∧ inputValue s' = inputValue s
  ∧ isProcessing s' = true
  ∧ currentProcessLog s' = "SCANNING IMAGE PIXELS...".
Proof.
  cbn. rewrite <- app_assoc. repeat split; reflexivity.
Qed.

(** X1. Text that is empty or made of white space only (spaces, tabs,
    line terminators, no-break and other Unicode spaces) is not
    submitted: the handler leaves the page as it is, also when no run is
    in flight. *)
Theorem X1_blank_text_is_not_submitted (w : World) (clk : Clock) :
  blank (inputValue (ui w)) = true → handleSubmit clk w = w.
Proof.
  intros H. unfold handleSubmit. rewrite truthy_trim, H. reflexivity.
Qed.

Lemma X1_blank_text_witness :
  blank (inputValue (ui (handleChange "  	  　 " initialWorld))) = true
  ∧ handleSubmit clockA (handleChange "  	  　 " initialWorld)
    = handleChange "  	  　 " initialWorld.
Proof.
  split; [reflexivity|].
  apply (X1_blank_text_is_not_submitted (handleChange "  	  　 " initialWorld) clockA).
  reflexivity.
Defined.

(** X2. When no run is in flight and the text has a character that is not
    white space, submitting appends exactly two turns, the user turn
    whose text is the input as typed (not trimmed) and the agent
    placeholder seeded with that text as [user_query] and a null image;
    it empties the input, sets [isProcessing], publishes the first label
    and leaves one more flow waiting; file reads in progress are
    untouched. *)
Theorem X2_submission_is_accepted (w : World) (clk : Clock) :
  isProcessing (ui w) = false →
  blank (inputValue (ui w)) = false →
  let q := inputValue (ui w) in
  let w' := handleSubmit clk w in
  messages (ui w') = messages (ui w) ++ [userMessage q clk; agentMessage q None clk]
  ∧ content (userMessage q clk) = q
  ∧ field "user_query" (agentMessage q None clk) = Some (VString q)
  ∧ field "image_data" (agentMessage q None clk) = Some VNull
  ∧ inputValue (ui w') = ""
  ∧ isProcessing (ui w') = true
  ∧ currentProcessLog (ui w') = "SCANNING IMAGE PIXELS..."
  ∧ pending w' = pending w ++ [afterWait 0 (simulateAgentFlow q None clk)]
  ∧ reading w' = reading w.
Proof.
  intros Hp Hb. cbn zeta. unfold handleSubmit.
  rewrite truthy_trim, Hb, Hp. cbn [negb andb].
  rewrite start_simulateAgentFlow. cbn [ui pending reading mkWorld].
  destruct (run_start_segment (inputValue (ui w)) None clk (ui w)) as (Hm & _ & Hq & Hl).
  cbn zeta in *.
  split; [exact Hm|].
  split; [apply orElse_truthy, blank_false_nonempty, Hb|].
  repeat split; assumption || reflexivity.
Qed.

Lemma X2_submission_witness :
  isProcessing (ui (handleChange " Is X safe? " initialWorld)) = false
  ∧ blank (inputValue (ui (handleChange " Is X safe? " initialWorld))) = false
  ∧ map content (messages (ui (handleSubmit clockA
                                 (handleChange " Is X safe? " initialWorld))))
    = [" Is X safe? "; ""].
Proof.
  split; [reflexivity|]. split; [reflexivity|].
  rewrite (proj1 (X2_submission_is_accepted
                    (handleChange " Is X safe? " initialWorld) clockA
                    eq_refl eq_refl)).
  reflexivity.
Defined.

(** X3. The submit button is disabled exactly when the submission
    handler would do nothing. *)
Theorem X3_submit_button_matches_handler (w : World) (clk : Clock) :
  submitDisabled (ui w) = true ↔ handleSubmit clk w = w.
Proof.
  unfold submitDisabled, handleSubmit.
  destruct (truthy (trim (inputValue (ui w)))) eqn:Ht;
    destruct (isProcessing (ui w)) eqn:Hp; cbn [negb orb andb];
    try (split; reflexivity).
  split; [discriminate|]. intros H. exfalso.
  apply (f_equal (λ w, isProcessing (ui w))) in H.
  rewrite start_simulateAgentFlow in H. cbn [ui mkWorld] in H.
  rewrite Hp in H. discriminate H.
Qed.

(** ** Uploads *)

(** X4. Closing the file dialog without a file changes nothing. Selecting
    a file changes nothing the page shows until the read ends. When the
    read ends, whether it succeeded or failed, a user turn with the fixed
    text "Analyze this label" and an agent placeholder are appended and a
    flow starts; the placeholder's [image_data] is the reader's result,
    the data URL after a successful read and null after a failed one.
    The text typed in the input is left as it is, and the read is no
    longer in progress. *)
Theorem X4_upload_starts_labelled_flow (w : World) (file : string)
    (result : option string) (clk : Clock) :
  handleFileSelect None w = w
  ∧ ui (handleFileSelect (Some file) w) = ui w
  ∧ pending (handleFileSelect (Some file) w) = pending w
  ∧ (let w' := onloadend (length (reading w)) result clk
                 (handleFileSelect (Some file) w) in
     messages (ui w')
     = messages (ui w) ++ [userMessage "Analyze this label" clk;
                           agentMessage "Analyze this label" result clk]
     ∧ content (userMessage "Analyze this label" clk) = "Analyze this label"
     ∧ field "image_data" (agentMessage "Analyze this label" result clk)
       = Some (match result with Some dataUrl => VString dataUrl | None => VNull end)
     ∧ inputValue (ui w') = inputValue (ui w)
     ∧ isProcessing (ui w') = true
     ∧ reading w' = reading w
     ∧ pending w'
       = pending w ++ [afterWait 0 (simulateAgentFlow "Analyze this label" result clk)]).
Proof.
  split; [reflexivity|]. split; [reflexivity|]. split; [reflexivity|].
  cbn zeta. unfold onloadend, handleFileSelect. cbn [reading ui pending].
  rewrite list_lookup_middle by reflexivity. rewrite delete_middle, app_nil_r.
  rewrite start_simulateAgentFlow. cbn [ui pending reading mkWorld].
  destruct (run_start_segment "Analyze this label" result clk (ui w))
    as (Hm & Hi & Hq & _).
  cbn zeta in *. repeat split; assumption || reflexivity.
Qed.

(** ** One run at a time *)

Lemma resume_eq k s : resume k s = (run (ranBy k) s, outcomeOf k).
Proof.
  revert s. induction k as [|e k IH]; intros s; [reflexivity|].
  destruct e; cbn [resume ranBy outcomeOf]; rewrite ?run_cons; try apply IH;
    reflexivity.
Qed.

Lemma streaming_onMessage_false k m :
  streaming m = false → streaming (onMessage k m) = false.
Proof.
  unfold streaming. intros H.
  destruct (isStreaming_monotone k m) as [E|E]; rewrite E; [exact H | reflexivity].
Qed.

Lemma stop_hits i k1 k2 m :
  id m = i → isStreaming (onMessage (k1 ++ StopStreaming i :: k2) m) = Some false.
Proof.
  intros Hi. rewrite onMessage_app, onMessage_cons.
  pose proof (id_onMessage k1 m) as Hid. rewrite Hi in Hid.
  set (x := onMessage k1 m) in *. rewrite <- Hid, stop_self.
  destruct (isStreaming_monotone k2 (withIsStreaming x false)) as [E|E];
    rewrite E; reflexivity.
Qed.

Lemma segment_messages ks s ms a :
  Forall (λ e, isAppend e = false) ks →
  messages s = ms ++ [a] →
  messages (run ks s) = map (onMessage ks) ms ++ [onMessage ks a].
Proof.
  intros Hk Hm. rewrite messages_run, news_no_append, app_nil_r, Hm, map_app by exact Hk.
  reflexivity.
Qed.

Lemma quiet_map k ms :
  Forall (λ m, streaming m = false) ms →
  Forall (λ m, streaming m = false) (map (onMessage k) ms).
Proof.
  intros H. apply Forall_map. eapply Forall_impl; [exact H|].
  intros m Hm. apply streaming_onMessage_false, Hm.
Qed.

Lemma Phase_start q img clk w :
  isProcessing (ui w) = false → pending w = [] →
  Forall (λ m, streaming m = false) (messages (ui w)) →
  ∀ v rd, Phase (mkWorld (setInputValue v (ui (start (simulateAgentFlow q img clk) w)))
                   rd (pending (start (simulateAgentFlow q img clk) w))).
Proof.
  intros _ Hq Hm v rd. rewrite start_simulateAgentFlow. cbn [ui pending mkWorld].
  rewrite Hq. cbn [app].
  destruct (run_start_segment q img clk (ui w)) as (Hms & _ & Hp & _). cbn zeta in *.
  eapply (Busy _ q img clk 0 (messages (ui w) ++ [userMessage q clk])
            (agentMessage q img clk)).
  - lia.
  - exact Hp.
  - reflexivity.
  - cbn [ui mkWorld setInputValue messages]. rewrite Hms, <- app_assoc. reflexivity.
  - apply Forall_app_2; [exact Hm | repeat constructor].
  - reflexivity.
  - reflexivity.
Qed.

Lemma Phase_same w w' :
  messages (ui w') = messages (ui w) → isProcessing (ui w') = isProcessing (ui w) →
  pending w' = pending w → Phase w → Phase w'.
Proof.
  intros Hm Hp Hq [H1 H2 H3 | q img clk j ms a Hj H1 H2 H3 H4 H5 H6].
  - apply Idle; congruence.
  - eapply (Busy _ q img clk j ms a); congruence.
Qed.

Lemma Phase_timer i w : Phase w → Phase (timerFired i w).
Proof.
  intros [H1 H2 H3 | q img clk j ms a Hj H1 H2 H3 H4 H5 H6]; unfold timerFired.
  - rewrite H2. cbn. apply Idle; assumption.
  - rewrite H2. destruct i as [|i]; cbn [lookup list_lookup];
      [|eapply (Busy _ q img clk j ms a); eassumption].
    rewrite resume_eq.
    assert (Hj' : (j = 0 ∨ j = 1 ∨ j = 2 ∨ j = 3 ∨ j = 4)%nat) by lia.
    destruct Hj' as [->|[->|[->|[->| ->]]]].
    5: {
      (* the last segment: the verdict merge and the epilogue *)
      cbn [afterWait simulateAgentFlow outcomeOf ranBy].
      set (ks := [UpdateAgentMsg (agentMsgId clk) verdictUpdate;
                  StopStreaming (agentMsgId clk); SetIsProcessing false;
                  SetCurrentProcessLog ""]).
      assert (Hks : Forall (λ e, isAppend e = false) ks) by repeat constructor.
      apply Idle; cbn [ui pending].
      - reflexivity.
      - reflexivity.
      - rewrite (segment_messages ks _ ms a Hks H3).
        apply Forall_app_2; [apply quiet_map, H4|]. repeat constructor.
        unfold streaming.
        change ks with ([UpdateAgentMsg (agentMsgId clk) verdictUpdate]
                          ++ StopStreaming (agentMsgId clk)
                             :: [SetIsProcessing false; SetCurrentProcessLog ""]).
        rewrite stop_hits by exact H5. reflexivity. }
    all: cbn [afterWait simulateAgentFlow outcomeOf ranBy];
      match goal with
      | |- Phase {| ui := run ?k _; reading := _; pending := _ |} =>
          set (ks := k);
          assert (Hks : Forall (λ e, isAppend e = false) ks) by repeat constructor;
          assert (Hst : Forall (λ e, isStop e = false) ks) by repeat constructor;
          assert (Hpr : Forall (λ e, isSetIsProcessing e = false) ks)
            by repeat constructor
      end.
    + eapply (Busy _ q img clk 1 (map (onMessage ks) ms) (onMessage ks a));
        cbn [ui pending];
        [lia | rewrite isProcessing_run by exact Hpr; exact H1 | reflexivity
        | apply segment_messages; assumption | apply quiet_map, H4
        | rewrite id_onMessage; exact H5
        | rewrite isStreaming_onMessage by exact Hst; exact H6].
    + eapply (Busy _ q img clk 2 (map (onMessage ks) ms) (onMessage ks a));
        cbn [ui pending];
        [lia | rewrite isProcessing_run by exact Hpr; exact H1 | reflexivity
        | apply segment_messages; assumption | apply quiet_map, H4
        | rewrite id_onMessage; exact H5
        | rewrite isStreaming_onMessage by exact Hst; exact H6].
    + eapply (Busy _ q img clk 3 (map (onMessage ks) ms) (onMessage ks a));
        cbn [ui pending];
        [lia | rewrite isProcessing_run by exact Hpr; exact H1 | reflexivity
        | apply segment_messages; assumption | apply quiet_map, H4
        | rewrite id_onMessage; exact H5
        | rewrite isStreaming_onMessage by exact Hst; exact H6].
    + eapply (Busy _ q img clk 4 (map (onMessage ks) ms) (onMessage ks a));
        cbn [ui pending];
        [lia | rewrite isProcessing_run by exact Hpr; exact H1 | reflexivity
        | apply segment_messages; assumption | apply quiet_map, H4
        | rewrite id_onMessage; exact H5
        | rewrite isStreaming_onMessage by exact Hst; exact H6].
Qed.

Lemma Phase_step e w : isLoadEnd e = false → Phase w → Phase (step w e).
Proof.
  intros He H. unfold step.
  destruct e as [v|c|f|i r c|sg c|c|i]; try discriminate; cbn [possible dispatch].
  - (* Change *)
    eapply Phase_same; [..|exact H]; reflexivity.
  - (* Submit *)
    unfold handleSubmit. destruct (truthy _ && negb _) eqn:E; [|exact H].
    apply andb_true_iff in E as [_ E]. apply negb_true_iff in E.
    destruct H as [H1 H2 H3 | q img clk j ms a Hj H1 H2 H3 H4 H5 H6]; [|congruence].
    pose proof (Phase_start (inputValue (ui w)) None c w H1 H2 H3 ""
                  (reading (start (simulateAgentFlow (inputValue (ui w)) None c) w)))
      as HP.
    exact HP.
  - (* FileSelect *)
    destruct f; [|exact H]. eapply Phase_same; [..|exact H]; reflexivity.
  - (* Suggestion *)
    unfold clickSuggestion. destruct (negb _) eqn:E; [|exact H].
    apply negb_true_iff in E.
    destruct H as [H1 H2 H3 | q img clk j ms a Hj H1 H2 H3 H4 H5 H6]; [|congruence].
    pose proof (Phase_start sg None c w H1 H2 H3 (inputValue (ui w)) (reading w)) as HP.
    eapply Phase_same; [..|exact HP]; reflexivity.
  - (* Research, rendered with the empty state only *)
    destruct (showEmptyState (ui w)) eqn:E; [|exact H].
    unfold showEmptyState in E. apply andb_true_iff in E as [_ E].
    apply negb_true_iff in E.
    destruct H as [H1 H2 H3 | q img clk j ms a Hj H1 H2 H3 H4 H5 H6]; [|congruence].
    pose proof (Phase_start "Is Ashwagandha safe for hypothyroidism?" None c w
                  H1 H2 H3 (inputValue (ui w)) (reading w)) as HP.
    eapply Phase_same; [..|exact HP]; reflexivity.
  - (* Timer *)
    apply Phase_timer, H.
Qed.

Lemma Phase_play es : ∀ w,
  Forall (λ e, isLoadEnd e = false) es → Phase w → Phase (play es w).
Proof.
  induction es as [|e es IH]; intros w Hes H; [exact H|].
  apply Forall_cons in Hes as [He Hes].
  apply (IH (step w e) Hes), Phase_step; assumption.
Qed.

Lemma filter_streaming_quiet ms :
  Forall (λ m, streaming m = false) ms →
  filter (λ m, streaming m = true) ms = [].
Proof.
  induction 1 as [|m ms Hm _ IH]; [reflexivity|].
  rewrite filter_cons, IH. destruct (decide _) as [E|E]; [congruence | reflexivity].
Qed.

(** X5. One run at a time. Start from the initial page and let any
    events happen except the end of a file read (a click on "Research
    Safety" only while the empty state is rendered): then at most one
    flow is waiting, [isProcessing] is true exactly when one is, and the
    turns in flight are as many as the waiting flows, at most one, and
    when there is one it is the last turn of the log. *)
Theorem X5_one_run_at_a_time (es : list Event) :
  Forall (λ e, isLoadEnd e = false) es →
  let w := play es initialWorld in
  length (pending w) = (if isProcessing (ui w) then 1 else 0)%nat
  ∧ length (filter (λ m, streaming m = true) (messages (ui w))) = length (pending w)
  ∧ filter (λ m, streaming m = true) (messages (ui w))
    = filter (λ m, streaming m = true) (drop (length (messages (ui w)) - 1)
                                             (messages (ui w))).
Proof.
  intros Hes. cbn zeta.
  assert (H0 : Phase initialWorld) by (apply Idle; [reflexivity..|constructor]).
  destruct (Phase_play es initialWorld Hes H0)
    as [H1 H2 H3 | q img clk j ms a Hj H1 H2 H3 H4 H5 H6].
  - rewrite H1, H2. rewrite (filter_streaming_quiet _ H3).
    split; [reflexivity|]. split; [reflexivity|].
    symmetry. apply filter_streaming_quiet, Forall_drop, H3.
  - rewrite H1, H2, H3.
    replace (length (ms ++ [a]) - 1)%nat with (length ms)
      by (rewrite length_app; cbn [length]; lia).
    rewrite drop_app_length, filter_app, (filter_streaming_quiet _ H4).
    assert (Ha : filter (λ m, streaming m = true) [a] = [a]).
    { assert (Hs : streaming a = true) by (unfold streaming; rewrite H6; reflexivity).
      rewrite filter_cons, filter_nil. destruct (decide _); [reflexivity | contradiction]. }
    rewrite Ha. repeat split.
Qed.

Lemma X5_one_run_witness :
  Forall (λ e, isLoadEnd e = false)
    [Research clockA; Change "Is Y safe?"; Submit clockB; Timer 0; Research clockB;
     Suggestion "View emergency protocol" clockB; Timer 0]
  ∧ length (pending
              (play [Research clockA; Change "Is Y safe?"; Submit clockB; Timer 0;
                     Research clockB; Suggestion "View emergency protocol" clockB;
                     Timer 0] initialWorld)) = 1%nat.
Proof.
  split; [repeat constructor|].
  rewrite (proj1 (X5_one_run_at_a_time
                    [Research clockA; Change "Is Y safe?"; Submit clockB; Timer 0;
                     Research clockB; Suggestion "View emergency protocol" clockB;
                     Timer 0] ltac:(repeat constructor))).
  reflexivity.
Defined.

(** ** A submission from start to end *)

Lemma submit_then_timers q clk s rd p :
  dispatchAll (replicate 5 (Timer (length p)))
    (mkWorld (setInputValue ""
                (run (prologue q None clk
                        ++ [SetCurrentProcessLog "SCANNING IMAGE PIXELS..."]) s))
       rd (p ++ [afterWait 0 (simulateAgentFlow q None clk)]))
  = mkWorld
      (run ((prologue q None clk ++ [SetCurrentProcessLog "SCANNING IMAGE PIXELS..."])
              ++ SetInputValue "" :: afterWait 0 (simulateAgentFlow q None clk)) s)
      rd p.
Proof.
  pose proof (drive_finish (Await 1000 :: afterWait 0 (simulateAgentFlow q None clk))
                (setInputValue ""
                   (run (prologue q None clk
                           ++ [SetCurrentProcessLog "SCANNING IMAGE PIXELS..."]) s))
                rd p) as H.
  cbn [resume settle] in H.
  change (waits (Await 1000 :: afterWait 0 (simulateAgentFlow q None clk)))
    with 5%nat in H.
  rewrite H, finish_no_throw by repeat constructor.
  rewrite run_app. reflexivity.
Qed.

(** X6. A submission runs to its end and gives the session back. From a
    page with no run in flight and a text that is not blank, submitting
    and letting the five timers of the flow fire leaves [isProcessing]
    false, the status label and the input empty, the same flows waiting
    as before, and the log longer by the user turn and the agent turn;
    the submit button is then disabled until text is typed, and enabled
    as soon as the text typed is not blank. *)
Theorem X6_submission_returns_to_idle (w : World) (clk : Clock) :
  isProcessing (ui w) = false →
  blank (inputValue (ui w)) = false →
  let q := inputValue (ui w) in
  let w' := dispatchAll (Submit clk :: timers 5 w) w in
  isProcessing (ui w') = false
  ∧ currentProcessLog (ui w') = ""
  ∧ inputValue (ui w') = ""
  ∧ pending w' = pending w
  ∧ reading w' = reading w
  ∧ map frame (messages (ui w'))
    = map frame (messages (ui w))
      ++ [frame (userMessage q clk); frame (agentMessage q None clk)]
  ∧ showThinking (ui w') = false
  ∧ submitDisabled (ui w') = true
  ∧ (∀ v, submitDisabled (ui (handleChange v w')) = blank v).
Proof.
  intros Hp Hb. cbn zeta. rewrite dispatchAll_cons. cbn [dispatch].
  unfold handleSubmit. rewrite truthy_trim, Hb, Hp. cbn [negb andb].
  rewrite start_simulateAgentFlow. cbn [ui pending reading mkWorld].
  unfold timers.
  change {| ui := ?s; reading := ?r; pending := ?p |} with (mkWorld s r p).
  rewrite submit_then_timers. cbn [ui pending reading mkWorld].
  set (k := (prologue (inputValue (ui w)) None clk
               ++ [SetCurrentProcessLog "SCANNING IMAGE PIXELS..."])
              ++ SetInputValue "" :: afterWait 0
                   (simulateAgentFlow (inputValue (ui w)) None clk)).
  assert (H1 : isProcessing (run k (ui w)) = false) by reflexivity.
  assert (H2 : currentProcessLog (run k (ui w)) = "") by reflexivity.
  assert (H3 : inputValue (run k (ui w)) = "") by reflexivity.
  split; [exact H1|]. split; [exact H2|]. split; [exact H3|].
  split; [reflexivity|]. split; [reflexivity|].
  split; [rewrite frame_run; reflexivity|].
  split; [unfold showThinking; rewrite H1; reflexivity|].
  split; [unfold submitDisabled; rewrite H3; reflexivity|].
  intros v. unfold submitDisabled.
  change (isProcessing (ui (handleChange v (mkWorld (run k (ui w)) (reading w)
                                              (pending w)))))
    with (isProcessing (run k (ui w))).
  rewrite H1, orb_false_r.
  change (inputValue (ui (handleChange v (mkWorld (run k (ui w)) (reading w)
                                            (pending w))))) with v.
  rewrite truthy_trim. apply negb_involutive.
Qed.

Lemma X6_submission_witness :
  isProcessing (ui (handleChange "Is X safe?" initialWorld)) = false
  ∧ blank (inputValue (ui (handleChange "Is X safe?" initialWorld))) = false
  ∧ isProcessing
      (ui (dispatchAll (Submit clockA :: timers 5 (handleChange "Is X safe?" initialWorld))
             (handleChange "Is X safe?" initialWorld))) = false.
Proof.
  split; [reflexivity|]. split; [reflexivity|].
  apply (X6_submission_returns_to_idle (handleChange "Is X safe?" initialWorld) clockA);
    reflexivity.
Defined.

(** ** The ids of the two turns of a flow *)

Lemma ids_equal_iff clk :
  userMsgId clk = agentMsgId clk ↔ agentIdNow clk + 1 = userIdNow clk.
Proof.
  unfold userMsgId, agentMsgId, toString. split.
  - intros H. apply (inj pretty) in H. lia.
  - intros H. rewrite H. reflexivity.
Qed.

Lemma effect_not_addressed i e m :
  addressedTo i e = true → id m ≠ i → effectOnMessage e m = m.
Proof.
  intros He Hm. destruct e as [| | | |j u|j| |]; try reflexivity; simpl in *.
  - apply String.eqb_eq in He. subst j.
    destruct (String.eqb (id m) i) eqn:E; [|reflexivity].
    apply String.eqb_eq in E. contradiction.
  - apply String.eqb_eq in He. subst j.
    destruct (String.eqb (id m) i) eqn:E; [|reflexivity].
    apply String.eqb_eq in E. contradiction.
Qed.

Lemma onMessage_not_addressed i k m :
  Forall (λ e, addressedTo i e = true) k → id m ≠ i → onMessage k m = m.
Proof.
  induction 1 as [|e k He _ IH]; intros Hm; [reflexivity|].
  rewrite onMessage_cons, (effect_not_addressed i e m He Hm). apply IH, Hm.
Qed.

Lemma flow_addressed_to_agent clk :
  Forall (λ e, addressedTo (agentMsgId clk) e = true) (stagePart clk ++ epilogue clk).
Proof. repeat constructor; apply eqb_self. Qed.

(** X7. Unless the clock stepped back by exactly one millisecond between
    the two readings of [Date.now()], the two turns of a flow have
    different ids, and the flow never touches its user turn: after the
    prologue and any number of further effects the user turn is the
    message that was appended. *)
Theorem X7_user_turn_is_left_alone (s : State) (q : string) (img : option string)
    (clk : Clock) (n : nat) :
  agentIdNow clk + 1 ≠ userIdNow clk →
  userMsgId clk ≠ agentMsgId clk
  ∧ userTurn s (run (prologue q img clk ++ take n (stagePart clk ++ epilogue clk)) s)
    = Some (userMessage q clk).
Proof.
  intros H.
  assert (Hid : userMsgId clk ≠ agentMsgId clk)
    by (intros E; apply H, ids_equal_iff, E).
  split; [exact Hid|].
  rewrite userTurn_flow
    by (apply Forall_take, Forall_app_2;
        [apply stages_no_append | apply epilogue_no_append]).
  f_equal. apply (onMessage_not_addressed (agentMsgId clk)).
  - apply Forall_take, flow_addressed_to_agent.
  - exact Hid.
Qed.

Lemma X7_user_turn_witness :
  agentIdNow clockA + 1 ≠ userIdNow clockA
  ∧ userTurn initialState (run (simulateAgentFlow "Is X safe?" None clockA) initialState)
    = Some (userMessage "Is X safe?" clockA).
Proof.
  split; [discriminate|].
  apply (X7_user_turn_is_left_alone initialState "Is X safe?" None clockA 17).
  discriminate.
Defined.

Lemma agentResponse_after_update i k u m :
  id m = i →
  agentResponse (onMessage (k ++ [UpdateAgentMsg i u]) m)
  = Some (response (onMessage (k ++ [UpdateAgentMsg i u]) m)).
Proof.
  intros Hi. rewrite onMessage_app. cbn [onMessage fold_left effectOnMessage].
  rewrite id_onMessage, Hi, eqb_self. reflexivity.
Qed.

(** X8. When the clock did step back by one millisecond, so that the
    user turn got the id computed for the agent turn, the updates meant
    for the agent turn are applied to the user turn as well: at the end
    of the run the user turn carries the whole scripted result (without
    [user_query] and [image_data]) and [isStreaming] false, though it
    still renders as a user message, by its text alone. *)
Theorem X8_id_collision_updates_user_turn (s : State) (q : string)
    (img : option string) (clk : Clock) :
  agentIdNow clk + 1 = userIdNow clk →
  ∃ u, userTurn s (run (simulateAgentFlow q img clk) s) = Some u
       ∧ frame u = frame (userMessage q clk)
       ∧ agentResponse (userMessage q clk) = None
       ∧ agentResponse u = Some scriptedResult
       ∧ isStreaming u = Some false
       ∧ render u = {| imagePreview := false; productGrid := false;
                       planTrace := false; verdictBadge := false;
                       reasoningText := false; nextSteps := false |}.
Proof.
  intros H. apply ids_equal_iff in H.
  change (simulateAgentFlow q img clk)
    with (prologue q img clk ++ stagePart clk ++ epilogue clk).
  eexists. split.
  { apply userTurn_flow, Forall_app_2;
      [apply stages_no_append | apply epilogue_no_append]. }
  set (u0 := userMessage q clk).
  assert (Hid : id u0 = agentMsgId clk) by exact H.
  assert (Hf : frame (onMessage (stagePart clk ++ epilogue clk) u0) = frame u0)
    by apply frame_onMessage.
  assert (Hr : agentResponse (onMessage (stagePart clk ++ epilogue clk) u0)
               = Some scriptedResult).
  { rewrite onMessage_app.
    assert (Hx : agentResponse (onMessage (stagePart clk) u0) = Some scriptedResult).
    { change (stagePart clk)
        with (flat_map (stageEffects (agentMsgId clk))
                [scanStage; extractStage; reasonStage; searchStage]
              ++ [SetCurrentProcessLog "GENERATING SAFETY VERDICT..."; Await 800]
              ++ [UpdateAgentMsg (agentMsgId clk) verdictUpdate]).
      rewrite app_assoc, agentResponse_after_update by exact Hid.
      rewrite <- app_assoc.
      change (flat_map (stageEffects (agentMsgId clk))
                [scanStage; extractStage; reasonStage; searchStage]
              ++ [SetCurrentProcessLog "GENERATING SAFETY VERDICT..."; Await 800]
              ++ [UpdateAgentMsg (agentMsgId clk) verdictUpdate])
        with (flat_map (stageEffects (agentMsgId clk)) scriptedStages).
      rewrite <- Hid, response_stages. reflexivity. }
    pose proof (id_onMessage (stagePart clk) u0) as Hid2. rewrite Hid in Hid2.
    set (x := onMessage (stagePart clk) u0) in *.
    unfold epilogue. rewrite onMessage_cons, <- Hid2, stop_self. exact Hx. }
  split; [exact Hf|]. split; [reflexivity|]. split; [exact Hr|]. split.
  - change (stagePart clk ++ epilogue clk)
      with (stagePart clk ++ StopStreaming (agentMsgId clk)
              :: [SetIsProcessing false; SetCurrentProcessLog ""]).
    apply stop_hits, Hid.
  - unfold render, shown. unfold frame in Hf.
    replace (type (onMessage (stagePart clk ++ epilogue clk) u0)) with user
      by (injection Hf; intros; subst u0; cbn in *; congruence).
    reflexivity.
Qed.

Lemma X8_id_collision_witness :
  agentIdNow clockBack + 1 = userIdNow clockBack
  ∧ ∃ u, userTurn initialState
           (run (simulateAgentFlow "Is X safe?" None clockBack) initialState) = Some u
         ∧ agentResponse u = Some scriptedResult.
Proof.
  split; [reflexivity|].
  destruct (X8_id_collision_updates_user_turn initialState "Is X safe?" None clockBack
              eq_refl) as (u & Hu & _ & _ & Hr & _).
  exists u. split; [exact Hu | exact Hr].
Defined.

(** ** Two flows at once *)

Lemma timerFired_middle s rd p k p2 :
  timerFired (length p) (mkWorld s rd (p ++ k :: p2)) =
  let '(s', r) := resume k s in mkWorld s' rd (p ++ settle r ++ p2).
Proof.
  unfold timerFired. cbn [pending ui reading mkWorld].
  rewrite list_lookup_middle by reflexivity.
  destruct (resume k s) as [s' r]. unfold mkWorld. f_equal.
  destruct r; cbn [settle app].
  - rewrite insert_app_r_alt by lia. rewrite Nat.sub_diag. reflexivity.
  - apply delete_middle.
  - apply delete_middle.
Qed.

Lemma drive_finish_middle k s rd p p2 :
  dispatchAll (replicate (waits k) (Timer (length p)))
    (let '(s', r) := resume k s in mkWorld s' rd (p ++ settle r ++ p2))
  = mkWorld (fst (finish k s)) rd (p ++ p2).
Proof.
  revert s. induction k as [|e k IH]; intros s.
  - reflexivity.
  - destruct e; try (cbn [resume waits finish]; apply IH).
    + cbn [resume waits finish replicate settle app]. rewrite dispatchAll_cons.
      cbn [dispatch]. rewrite timerFired_middle. apply IH.
    + reflexivity.
Qed.

Lemma two_flows_first s rd p ka ka' kb :
  outcomeOf ka = Pending ka' →
  timerFired (length p) (mkWorld s rd (p ++ [ka; kb]))
  = mkWorld (run (ranBy ka) s) rd (p ++ [ka'; kb]).
Proof.
  intros H. rewrite (timerFired_middle s rd p ka [kb]), resume_eq, H. reflexivity.
Qed.

Lemma two_flows_first_ends s rd p ka kb :
  outcomeOf ka = Fulfilled →
  timerFired (length p) (mkWorld s rd (p ++ [ka; kb]))
  = mkWorld (run (ranBy ka) s) rd (p ++ [kb]).
Proof.
  intros H. rewrite (timerFired_middle s rd p ka [kb]), resume_eq, H. reflexivity.
Qed.

Lemma two_flows_second s rd p ka kb kb' :
  outcomeOf kb = Pending kb' →
  timerFired (length p + 1) (mkWorld s rd (p ++ [ka; kb]))
  = mkWorld (run (ranBy kb) s) rd (p ++ [ka; kb']).
Proof.
  intros H.
  pose proof (timerFired_middle s rd (p ++ [ka]) kb []) as E.
  rewrite length_app, <- app_assoc, resume_eq, H in E. cbn [length app settle] in E.
  rewrite E, <- app_assoc. reflexivity.
Qed.

(** X9. [isProcessing] is one flag for all flows. If the read of a
    selected file ends while the run of a submitted text is waiting on
    its first timer, two flows are under way. Their timers then fire in
    turn, the first flow's before the second's (the order of their due
    times when the read ended less than 800 ms after the submission).
    When the first flow's fifth timer has fired, [isProcessing] is false
    and the status label is empty although the second flow is still
    waiting, with its verdict merge to come, so the submit button is
    enabled again as soon as text that is not blank is typed. *)
Theorem X9_first_flow_to_end_clears_flag (w : World) (i : nat) (file : string)
    (result : option string) (ca cb : Clock) :
  isProcessing (ui w) = false →
  blank (inputValue (ui w)) = false →
  reading w !! i = Some file →
  let flowB := simulateAgentFlow "Analyze this label" result cb in
  let first := Timer (length (pending w)) in
  let second := Timer (length (pending w) + 1) in
  let w2 := onloadend i result cb (handleSubmit ca w) in
  let w' := dispatchAll [first; second; first; second; first; second;
                         first; second; first] w2 in
  length (pending w2) = (length (pending w) + 2)%nat
  ∧ isProcessing (ui w2) = true
  ∧ pending w' = pending w ++ [afterWait 4 flowB]
  ∧ afterWait 4 flowB
    = [UpdateAgentMsg (agentMsgId cb) verdictUpdate; StopStreaming (agentMsgId cb);
       SetIsProcessing false; SetCurrentProcessLog ""]
  ∧ isProcessing (ui w') = false
  ∧ currentProcessLog (ui w') = ""
  ∧ length (messages (ui w')) = (length (messages (ui w)) + 4)%nat
  ∧ (∀ v, submitDisabled (ui (handleChange v w')) = blank v).
Proof.
  intros Hp Hb Hi. cbn zeta.
  unfold handleSubmit. rewrite truthy_trim, Hb, Hp. cbn [negb andb].
  rewrite start_simulateAgentFlow. cbn [ui pending reading mkWorld].
  unfold onloadend. cbn [reading ui pending]. rewrite Hi.
  rewrite start_simulateAgentFlow. cbn [ui pending reading mkWorld].
  set (q := inputValue (ui w)).
  set (flowA := simulateAgentFlow q None ca).
  set (flowB := simulateAgentFlow "Analyze this label" result cb).
  set (s0 := run (prologue "Analyze this label" result cb
                    ++ [SetCurrentProcessLog "SCANNING IMAGE PIXELS..."])
               (setInputValue ""
                  (run (prologue q None ca
                          ++ [SetCurrentProcessLog "SCANNING IMAGE PIXELS..."]) (ui w)))).
  rewrite <- app_assoc. cbn [app].
  change {| ui := s0; reading := ?r; pending := ?p |} with (mkWorld s0 r p).
  rewrite !dispatchAll_cons. cbn [dispatch dispatchAll fold_left].
  rewrite (two_flows_first _ _ _ _ (afterWait 1 flowA)) by reflexivity.
  rewrite (two_flows_second _ _ _ _ _ (afterWait 1 flowB)) by reflexivity.
  rewrite (two_flows_first _ _ _ _ (afterWait 2 flowA)) by reflexivity.
  rewrite (two_flows_second _ _ _ _ _ (afterWait 2 flowB)) by reflexivity.
  rewrite (two_flows_first _ _ _ _ (afterWait 3 flowA)) by reflexivity.
  rewrite (two_flows_second _ _ _ _ _ (afterWait 3 flowB)) by reflexivity.
  rewrite (two_flows_first _ _ _ _ (afterWait 4 flowA)) by reflexivity.
  rewrite (two_flows_second _ _ _ _ _ (afterWait 4 flowB)) by reflexivity.
  rewrite two_flows_first_ends by reflexivity.
  rewrite <- !run_app. cbn [ui pending mkWorld].
  match goal with |- context [run ?k s0] => set (K := k) end.
  assert (H1 : isProcessing (run K s0) = false) by reflexivity.
  split; [rewrite length_app; reflexivity|].
  split; [reflexivity|]. split; [reflexivity|]. split; [reflexivity|].
  split; [exact H1|]. split; [reflexivity|]. split.
  - rewrite <- (length_map frame), frame_run. unfold s0. rewrite frame_run.
    cbn [setInputValue messages]. rewrite frame_run, !length_app, !length_map.
    cbn. lia.
  - intros v. unfold submitDisabled.
    change (isProcessing (ui (handleChange v (mkWorld (run K s0) (delete i (reading w))
                                                (pending w ++ [afterWait 4 flowB])))))
      with (isProcessing (run K s0)).
    rewrite H1, orb_false_r.
    change (inputValue (ui (handleChange v (mkWorld (run K s0) (delete i (reading w))
                                              (pending w ++ [afterWait 4 flowB])))))
      with v.
    rewrite truthy_trim. apply negb_involutive.
Qed.

Lemma X9_first_flow_witness :
  isProcessing (ui (handleFileSelect (Some sampleFile)
                      (handleChange "Is X safe?" initialWorld))) = false
  ∧ blank (inputValue (ui (handleFileSelect (Some sampleFile)
                             (handleChange "Is X safe?" initialWorld)))) = false
  ∧ reading (handleFileSelect (Some sampleFile)
               (handleChange "Is X safe?" initialWorld)) !! 0%nat = Some sampleFile
  ∧ isProcessing
      (ui (dispatchAll [Timer 0; Timer 1; Timer 0; Timer 1; Timer 0; Timer 1;
                        Timer 0; Timer 1; Timer 0]
             (onloadend 0 (Some sampleImage) clockB busyWorld)))
    = false.
Proof.
  split; [reflexivity|]. split; [reflexivity|]. split; [reflexivity|].
  apply (X9_first_flow_to_end_clears_flag
           (handleFileSelect (Some sampleFile) (handleChange "Is X safe?" initialWorld))
           0 sampleFile (Some sampleImage) clockA clockB); reflexivity.
Defined.

(** ** What is shown while a run goes on *)






(** ** The log as a whole *)

Lemma types_run k s :
  map type (messages (run k s))
  = map type (messages s) ++ map type (flat_map appended k).
Proof.
  pose proof (f_equal (map (λ x : string * Role * string * Z, snd (fst (fst x))))
                (frame_run k s)) as H.
  rewrite map_app, !map_map in H. exact H.
Qed.

Lemma length_run k s : (length (messages s) ≤ length (messages (run k s)))%nat.
Proof.
  rewrite <- (length_map type (messages (run k s))), types_run, length_app, length_map.
  lia.
Qed.

(** X11. Once a flow has been started the empty state, and with it the
    "Research Safety" button whose handler does not test [isProcessing],
    is never rendered again, whatever events follow: the log is never
    empty afterwards. *)
Theorem X11_empty_state_never_returns (w : World) (q : string) (img : option string)
    (clk : Clock) (es : list Event) :
  let w' := dispatchAll es (start (simulateAgentFlow q img clk) w) in
  showEmptyState (ui w') = false
  ∧ (length (messages (ui w)) + 2 ≤ length (messages (ui w')))%nat.
Proof.
  cbn zeta.
  assert (H1 : length (messages (ui (start (simulateAgentFlow q img clk) w)))
               = (length (messages (ui w)) + 2)%nat).
  { rewrite start_simulateAgentFlow. cbn [ui mkWorld].
    destruct (run_start_segment q img clk (ui w)) as (Hm & _). cbn zeta in Hm.
    rewrite Hm, length_app. reflexivity. }
  set (w1 := start (simulateAgentFlow q img clk) w) in *.
  destruct (dispatchAll_run es w1) as [k Hk]. rewrite Hk.
  pose proof (length_run k (ui w1)) as Hlen.
  split; [|lia]. unfold showEmptyState.
  destruct (length (messages (run k (ui w1)))) eqn:E; [lia | reflexivity].
Qed.

Lemma no_append_ranBy k :
  Forall (λ e, isAppend e = false) k → Forall (λ e, isAppend e = false) (ranBy k).
Proof.
  induction 1 as [|e k He _ IH]; [constructor|].
  destruct e; cbn [ranBy]; try constructor; assumption.
Qed.

Lemma no_append_outcomeOf k k' :
  Forall (λ e, isAppend e = false) k → outcomeOf k = Pending k' →
  Forall (λ e, isAppend e = false) k'.
Proof.
  induction 1 as [|e k He H IH]; [discriminate|].
  destruct e; cbn [outcomeOf]; try exact IH; [|discriminate].
  intros E. injection E as <-. exact H.
Qed.

Lemma paired_start q img clk w rd v :
  paired w →
  paired (mkWorld (setInputValue v (ui (start (simulateAgentFlow q img clk) w))) rd
            (pending (start (simulateAgentFlow q img clk) w))).
Proof.
  intros [[n Hn] Hp]. rewrite start_simulateAgentFlow. cbn [ui pending mkWorld].
  destruct (run_start_segment q img clk (ui w)) as (Hm & _). cbn zeta in Hm.
  split.
  - exists (n + 1)%nat. cbn [ui mkWorld setInputValue messages].
    rewrite Hm, map_app, Hn, replicate_add, concat_app. reflexivity.
  - cbn [pending mkWorld]. apply Forall_app_2; [exact Hp|]. repeat constructor.
Qed.

Lemma appended_no_append k :
  Forall (λ e, isAppend e = false) k → flat_map appended k = [].
Proof.
  induction 1 as [|e k He _ IH]; [reflexivity|].
  cbn [flat_map]. rewrite IH, app_nil_r. destruct e; try reflexivity. discriminate.
Qed.

Lemma paired_same w w' :
  messages (ui w') = messages (ui w) → pending w' = pending w → paired w → paired w'.
Proof. intros Hm Hp [Hn Hq]. unfold paired. rewrite Hm, Hp. split; assumption. Qed.

Lemma paired_dispatch e w : paired w → paired (dispatch e w).
Proof.
  intros H. destruct e as [v|c|f|i r c|sg c|c|i]; cbn [dispatch].
  - eapply paired_same; [..|exact H]; reflexivity.
  - unfold handleSubmit. destruct (_ && _); [|exact H].
    apply (paired_start _ None c w _ "" H).
  - destruct f; [|exact H]. eapply paired_same; [..|exact H]; reflexivity.
  - unfold onloadend. destruct (reading w !! i) as [f|]; [|exact H].
    pose proof (paired_start "Analyze this label" r c w (delete i (reading w))
                  (inputValue (ui w)) H) as HP.
    eapply paired_same; [..|exact HP]; reflexivity.
  - unfold clickSuggestion. destruct (negb _); [|exact H].
    pose proof (paired_start sg None c w (reading w) (inputValue (ui w)) H) as HP.
    eapply paired_same; [..|exact HP]; reflexivity.
  - pose proof (paired_start "Is Ashwagandha safe for hypothyroidism?" None c w
                  (reading w) (inputValue (ui w)) H) as HP.
    eapply paired_same; [..|exact HP]; reflexivity.
  - unfold timerFired. destruct (pending w !! i) as [k|] eqn:Ek; [|exact H].
    rewrite resume_eq. destruct H as [[n Hn] Hp].
    pose proof (Forall_lookup_1 _ _ _ _ Hp Ek) as Hk.
    split; cbn [ui pending].
    + exists n. rewrite types_run.
      rewrite (appended_no_append _ (no_append_ranBy k Hk)), app_nil_r. exact Hn.
    + destruct (outcomeOf k) eqn:Eo.
      * apply Forall_insert; [exact Hp|]. eapply no_append_outcomeOf; eassumption.
      * apply Forall_delete, Hp.
      * apply Forall_delete, Hp.
Qed.

(** X12. Turns come in pairs. From the initial page, after any sequence
    of events at all, interleaved flows included, the log is a sequence of
    pairs: a user turn, then an agent turn, and so on; its length is
    even. *)
Theorem X12_turns_come_in_pairs (es : list Event) :
  ∃ n, map type (messages (ui (dispatchAll es initialWorld)))
       = concat (replicate n [user; agent])
       ∧ length (messages (ui (dispatchAll es initialWorld))) = (2 * n)%nat.
Proof.
  assert (H : paired (dispatchAll es initialWorld)).
  { assert (H0 : paired initialWorld) by (split; [by exists 0%nat | constructor]).
    revert H0. generalize initialWorld.
    induction es as [|e es IH]; intros w Hw; [exact Hw|].
    rewrite dispatchAll_cons. apply IH, paired_dispatch, Hw. }
  destruct H as [[n Hn] _]. exists n. split; [exact Hn|].
  rewrite <- (length_map type), Hn. clear Hn.
  induction n as [|n IH]; [reflexivity|]. cbn [replicate concat app length].
  rewrite IH. lia.
Qed.

(** ** The query of a flow *)

(** X13. An empty query is shown as "Scanning uploaded label...": the user
    turn of a flow has the query as its text, or that fixed text when the
    query is empty, and keeps it through the run; the agent turn's
    [user_query] is the query itself, empty when the query is, after
    every effect of the run. *)
Theorem X13_empty_query_gets_fallback_text (s : State) (q : string)
    (img : option string) (clk : Clock) (n : nat) :
  let s' := run (prologue q img clk ++ take n (stagePart clk ++ epilogue clk)) s in
  (∃ u, userTurn s s' = Some u
        ∧ content u = (if decide (q = "") then "Scanning uploaded label..." else q))
  ∧ (∃ a, agentTurn s s' = Some a ∧ field "user_query" a = Some (VString q)).
Proof.
  assert (Hb : Forall (λ e, isAppend e = false) (take n (stagePart clk ++ epilogue clk))).
  { apply Forall_take, Forall_app_2;
      [apply stages_no_append | apply epilogue_no_append]. }
  cbn zeta. split.
  - eexists. split; [apply userTurn_flow, Hb|].
    set (K := take n (stagePart clk ++ epilogue clk)).
    assert (Hc : content (onMessage K (userMessage q clk)) = content (userMessage q clk)).
    { pose proof (frame_onMessage K (userMessage q clk)) as Hf.
      unfold frame in Hf. congruence. }
    rewrite Hc. cbn [content userMessage]. destruct (decide (q = "")) as [->|Hq];
      [reflexivity | apply orElse_truthy, Hq].
  - eexists. split; [apply agentTurn_flow, Hb|].
    rewrite field_onMessage_untouched; [reflexivity|].
    apply Forall_take. repeat constructor.
Qed.

(** X14. The two click handlers. A click on a suggestion when no run is
    in flight starts a flow whose user turn has the suggestion as its
    text (the fixed text if the suggestion is empty), and a click on
    "Research Safety" starts one with the fixed question; neither reads
    nor clears the text typed in the input. The research handler does
    so whether or not a run is in flight. *)
Theorem X14_click_handlers_start_flows (w : World) (sg : string) (clk : Clock) :
  isProcessing (ui w) = false →
  (let w' := clickSuggestion sg clk w in
   messages (ui w') = messages (ui w) ++ [userMessage sg clk; agentMessage sg None clk]
   ∧ inputValue (ui w') = inputValue (ui w)
   ∧ isProcessing (ui w') = true
   ∧ pending w' = pending w ++ [afterWait 0 (simulateAgentFlow sg None clk)])
  ∧ (∀ w0 : World,
       let research := "Is Ashwagandha safe for hypothyroidism?" in
       let w' := clickResearch clk w0 in
       messages (ui w')
       = messages (ui w0) ++ [userMessage research clk; agentMessage research None clk]
       ∧ content (userMessage research clk) = research
       ∧ inputValue (ui w') = inputValue (ui w0)
       ∧ isProcessing (ui w') = true
       ∧ pending w' = pending w0 ++ [afterWait 0 (simulateAgentFlow research None clk)]).
Proof.
  intros Hp. split.
  - cbn zeta. unfold clickSuggestion. rewrite Hp. cbn [negb].
    rewrite start_simulateAgentFlow. cbn [ui pending mkWorld].
    destruct (run_start_segment sg None clk (ui w)) as (Hm & Hi & Hq & _).
    cbn zeta in *. repeat split; assumption.
  - intros w0. cbn zeta. unfold clickResearch.
    rewrite start_simulateAgentFlow. cbn [ui pending mkWorld].
    destruct (run_start_segment "Is Ashwagandha safe for hypothyroidism?" None clk
                (ui w0)) as (Hm & Hi & Hq & _).
    cbn zeta in *. repeat split; assumption.
Qed.

Lemma X14_click_handlers_witness :
  isProcessing (ui initialWorld) = false
  ∧ map content (messages (ui (clickSuggestion "View emergency protocol" clockA
                                 initialWorld)))
    = ["View emergency protocol"; ""].
Proof.
  split; [reflexivity|].
  rewrite (proj1 (proj1 (X14_click_handlers_start_flows initialWorld
                           "View emergency protocol" clockA eq_refl))).
  reflexivity.
Defined.

(** ** Guards and the flag of a run alone *)

(** X15. While [isProcessing] is true, the text submission handler and
    the handler of a suggestion button do nothing: the page (state,
    message log, waiting flows) is as before. *)
Theorem X15_submit_ignored_while_processing (w : World) (clk : Clock) (s : string) :
  isProcessing (ui w) = true →
  handleSubmit clk w = w ∧ clickSuggestion s clk w = w.
Proof.
  intros H. unfold handleSubmit, clickSuggestion. rewrite H.
  rewrite andb_false_r. split; reflexivity.
Qed.

Lemma X15_submit_ignored_witness :
  isProcessing (ui busyWorld) = true
  ∧ handleSubmit clockB busyWorld = busyWorld
  ∧ clickSuggestion "View emergency protocol" clockB busyWorld = busyWorld.
Proof.
  split; [reflexivity|].
  apply (X15_submit_ignored_while_processing busyWorld clockB "View emergency protocol").
  reflexivity.
Defined.

(** X16. In a run of the flow with no other flow resumed in between,
    the agent turn has [isStreaming] true when it
    is created and after every effect of the stage part, the merge of the
    verdict stage included, while [isProcessing] is true; the effect that
    follows that merge, with no wait between the two, sets it to false,
    and it is false after each of the remaining effects. No effect ever
    sets [isStreaming] of a turn back: it keeps its value or becomes
    false. While the run is under way, the handlers of the text input,
    of the form, of the file input and of the suggestion buttons leave the
    log, [isProcessing] and the waiting flows as they are. *)
Theorem X16_isStreaming_in_a_run_alone (s : State) (q : string) (img : option string)
    (clk : Clock) :
  simulateAgentFlow q img clk = prologue q img clk ++ stagePart clk ++ epilogue clk
  ∧ last (stagePart clk) = Some (UpdateAgentMsg (agentMsgId clk) verdictUpdate)
  ∧ head (epilogue clk) = Some (StopStreaming (agentMsgId clk))
  ∧ (∀ n, let s' := run (prologue q img clk ++ take n (stagePart clk)) s in
          isProcessing s' = true
          ∧ ∃ a, agentTurn s s' = Some a ∧ isStreaming a = Some true)
  ∧ (∀ n, let s' := run (prologue q img clk ++ stagePart clk
                           ++ take (S n) (epilogue clk)) s in
          ∃ a, agentTurn s s' = Some a ∧ isStreaming a = Some false)
  ∧ (∀ (k : list Effect) (m : Message),
       isStreaming (onMessage k m) = isStreaming m
       ∨ isStreaming (onMessage k m) = Some false)
  ∧ (∀ (n : nat) (rd : list string) (p : list (list Effect)) (es : list Event),
       let w := mkWorld (run (prologue q img clk ++ take n (stagePart clk)) s) rd p in
       let w' := dispatchAll (filter (λ e, guarded e = true) es) w in
       messages (ui w') = messages (ui w)
       ∧ isProcessing (ui w') = true
       ∧ pending w' = pending w).
Proof.
  assert (Hp : ∀ n, isProcessing (run (prologue q img clk ++ take n (stagePart clk)) s)
                    = true).
  { intros n. rewrite run_app, isProcessing_run; [reflexivity|].
    apply Forall_take, stages_keep_isProcessing. }
  split; [reflexivity|]. split; [reflexivity|]. split; [reflexivity|].
  split; [|split; [|split]].
  - intros n. cbn zeta. split; [apply Hp|].
    eexists. split.
    + apply agentTurn_flow, Forall_take, stages_no_append.
    + rewrite isStreaming_onMessage; [reflexivity|].
      apply Forall_take, stages_no_stop.
  - intros n. cbn zeta. eexists. split.
    + apply agentTurn_flow, Forall_app_2; [apply stages_no_append|].
      apply Forall_take, epilogue_no_append.
    + apply stop_after_stages.
  - apply isStreaming_monotone.
  - intros n rd p es. cbn zeta.
    apply (guarded_events_while_processing es (mkWorld _ rd p)), Hp.
Qed.
